(** * Campus Booking API: the booking conflict and admission engine

    A shallow embedding of [src/booking_api.py]: the SQLite tables become
    lists of rows threaded through every handler, a handler is a function
    from the database to the database it commits and the response it
    answers, and the timestamps stay the strings the callers submit. *)

From Stdlib Require Import ZArith List String Ascii Bool Lia Sorted Permutation.
Import ListNotations.

Open Scope Z_scope.

(** ** Python's [datetime], as far as [create_booking] uses it *)

Module PyDatetime.

(** The fields of a [datetime] object.  [tzinfo] is the fixed UTC offset
    in microseconds of an aware datetime, [None] for a naive one. *)
Record datetime := mk_datetime {
  year : Z;
  month : Z;
  day : Z;
  hour : Z;
  minute : Z;
  second : Z;
  microsecond : Z;
  tzinfo : option Z
}.

Definition is_leap (y : Z) : bool :=
  (y mod 4 =? 0) && (negb (y mod 100 =? 0) || (y mod 400 =? 0)).

Definition days_in_month (y m : Z) : Z :=
  match m with
  | 1 | 3 | 5 | 7 | 8 | 10 | 12 => 31
  | 4 | 6 | 9 | 11 => 30
  | 2 => if is_leap y then 29 else 28
  | _ => 0
  end.

Definition days_before_year (y : Z) : Z :=
  let p := y - 1 in p * 365 + p / 4 - p / 100 + p / 400.

Definition days_before_month (y m : Z) : Z :=
  fold_right Z.add 0
    (map (days_in_month y) (map Z.of_nat (seq 1 (Z.to_nat (m - 1))))).

(** The proleptic Gregorian ordinal of a date, 0001-01-01 being day 1. *)
Definition ymd2ord (y m d : Z) : Z :=
  days_before_year y + days_before_month y m + d.

(** Microseconds of the wall-clock fields since 0001-01-01T00:00:00. *)
Definition wall_clock (dt : datetime) : Z :=
  ((((ymd2ord (year dt) (month dt) (day dt) - 1) * 24 + hour dt) * 60
    + minute dt) * 60 + second dt) * 1000000 + microsecond dt.

(** An ordering comparison of two datetimes raises [TypeError] when one
    is naive and the other aware; two aware ones compare by their UTC
    instants, two naive ones by their fields. *)
Definition cmp_key (a b : datetime) : option (Z * Z) :=
  match tzinfo a, tzinfo b with
  | None, None => Some (wall_clock a, wall_clock b)
  | Some oa, Some ob => Some (wall_clock a - oa, wall_clock b - ob)
  | _, _ => None
  end.

Definition le (a b : datetime) : option bool :=
  option_map (fun k => fst k <=? snd k) (cmp_key a b).

Definition lt (a b : datetime) : option bool :=
  option_map (fun k => fst k <? snd k) (cmp_key a b).

(** *** [datetime.fromisoformat]

    The documented grammar of Python 3.7 to 3.10,
    [YYYY-MM-DD[*HH[:MM[:SS[.fff[fff]]]][+HH:MM[:SS[.ffffff]]]]]
    where [*] is any single character, followed by the range checks of
    the [datetime] and [timezone] constructors.  [None] stands for the
    [ValueError] the function raises. *)

Definition bind {A B} (o : option A) (k : A -> option B) : option B :=
  match o with Some a => k a | None => None end.

Notation "x <- e ;; k" := (bind e (fun x => k))
  (at level 61, e at next level, right associativity).

Definition guard (b : bool) : option unit :=
  if b then Some tt else None.

Definition digit (c : ascii) : option Z :=
  let n := Z.of_N (N_of_ascii c) in
  if (48 <=? n) && (n <=? 57) then Some (n - 48) else None.

(** Exactly [n] decimal digits at the head of [s]. *)
Fixpoint digits (n : nat) (acc : Z) (s : string) : option (Z * string) :=
  match n with
  | O => Some (acc, s)
  | S n' =>
      match s with
      | String c s' => d <- digit c ;; digits n' (acc * 10 + d) s'
      | EmptyString => None
      end
  end.

Definition expect (c : ascii) (s : string) : option string :=
  match s with
  | String c' s' => if Ascii.eqb c c' then Some s' else None
  | EmptyString => None
  end.

(** [.fff] or [.ffffff] up to the end of the string, in microseconds. *)
Definition fraction (s : string) : option Z :=
  match String.length s with
  | 3%nat => r <- digits 3 0 s ;; Some (fst r * 1000)
  | 6%nat => r <- digits 6 0 s ;; Some (fst r)
  | _ => None
  end.

(** [HH[:MM[:SS[.fff[fff]]]]], the whole of [s]. *)
Definition parse_hh_mm_ss_ff (s : string) : option (Z * Z * Z * Z) :=
  r <- digits 2 0 s ;;
  let '(hh, s) := r in
  match s with
  | EmptyString => Some (hh, 0, 0, 0)
  | _ =>
      s <- expect ":" s ;;
      r <- digits 2 0 s ;;
      let '(mm, s) := r in
      match s with
      | EmptyString => Some (hh, mm, 0, 0)
      | _ =>
          s <- expect ":" s ;;
          r <- digits 2 0 s ;;
          let '(ss, s) := r in
          match s with
          | EmptyString => Some (hh, mm, ss, 0)
          | _ => s <- expect "." s ;; ff <- fraction s ;; Some (hh, mm, ss, ff)
          end
      end
  end.

(** Split a time string at its first [+] or [-]: the time proper, and
    the sign and text of the offset when there is one. *)
Fixpoint split_tz (s : string) : string * option (Z * string) :=
  match s with
  | EmptyString => (EmptyString, None)
  | String c s' =>
      if Ascii.eqb c "+" then (EmptyString, Some (1, s'))
      else if Ascii.eqb c "-" then (EmptyString, Some (-1, s'))
      else let '(t, z) := split_tz s' in (String c t, z)
  end.

Definition usec (h m s f : Z) : Z := ((h * 60 + m) * 60 + s) * 1000000 + f.

(** The offset of a [timezone] is strictly between -24 and +24 hours. *)
Definition parse_tz (sign : Z) (s : string) : option Z :=
  _ <- guard (existsb (Nat.eqb (String.length s)) [5; 8; 15]%nat) ;;
  r <- parse_hh_mm_ss_ff s ;;
  let '(h, m, sec, f) := r in
  let off := sign * usec h m sec f in
  _ <- guard ((- usec 24 0 0 0 <? off) && (off <? usec 24 0 0 0)) ;;
  Some off.

Definition parse_isoformat_time (s : string)
  : option (Z * Z * Z * Z * option Z) :=
  let '(t, z) := split_tz s in
  r <- parse_hh_mm_ss_ff t ;;
  match z with
  | None => Some (r, None)
  | Some (sign, zs) => off <- parse_tz sign zs ;; Some (r, Some off)
  end.

Definition parse_isoformat_date (s : string) : option (Z * Z * Z * string) :=
  r <- digits 4 0 s ;;
  let '(y, s) := r in
  s <- expect "-" s ;;
  r <- digits 2 0 s ;;
  let '(m, s) := r in
  s <- expect "-" s ;;
  r <- digits 2 0 s ;;
  let '(d, s) := r in
  Some (y, m, d, s).

Definition in_range (lo x hi : Z) : bool := (lo <=? x) && (x <=? hi).

(** The constructor's checks: [MINYEAR] is 1 and [MAXYEAR] is 9999. *)
Definition valid (dt : datetime) : bool :=
  in_range 1 (year dt) 9999 && in_range 1 (month dt) 12
  && in_range 1 (day dt) (days_in_month (year dt) (month dt))
  && in_range 0 (hour dt) 23 && in_range 0 (minute dt) 59
  && in_range 0 (second dt) 59 && in_range 0 (microsecond dt) 999999.

Definition fromisoformat (date_string : string) : option datetime :=
  r <- parse_isoformat_date date_string ;;
  let '(y, m, d, rest) := r in
  t <- match rest with
       | EmptyString => Some (0, 0, 0, 0, None)
       | String _sep tstr => parse_isoformat_time tstr
       end ;;
  let '(hh, mm, ss, ff, tz) := t in
  let dt := mk_datetime y m d hh mm ss ff tz in
  _ <- guard (valid dt) ;;
  Some dt.


End PyDatetime.

(** ** SQLite, as far as the queries use it *)

Module Sqlite.

(** A Python [int] binds to a statement as a signed 64-bit INTEGER;
    outside that range [execute] raises [OverflowError]. *)
Definition binds (n : Z) : bool := (- 2 ^ 63 <=? n) && (n <? 2 ^ 63).

(** The columns [start_time] and [end_time] are declared DATETIME, which
    gives them NUMERIC affinity: a text that is a well-formed numeric
    literal is kept as a number, any other text as TEXT.  A literal is
    [[+-]digits[.digits][E[+-]digits]] with a digit before or after the
    point, between optional white space. *)
Definition is_space (c : ascii) : bool :=
  let n := Z.of_N (N_of_ascii c) in ((9 <=? n) && (n <=? 13)) || (n =? 32).

Fixpoint skip_spaces (s : string) : string :=
  match s with
  | String c s' => if is_space c then skip_spaces s' else s
  | EmptyString => EmptyString
  end.

Definition skip_sign (s : string) : Z * string :=
  match s with
  | String c s' =>
      if Ascii.eqb c "+" then (1, s')
      else if Ascii.eqb c "-" then (-1, s')
      else (1, s)
  | EmptyString => (1, s)
  end.

(** The digits at the head of [s]: their value, their number, the rest. *)
Fixpoint take_digits (s : string) (acc : Z) (count : nat)
  : Z * nat * string :=
  match s with
  | String c s' =>
      let n := Z.of_N (N_of_ascii c) in
      if (48 <=? n) && (n <=? 57)
      then take_digits s' (acc * 10 + (n - 48)) (S count)
      else (acc, count, s)
  | EmptyString => (acc, count, s)
  end.

Inductive literal :=
| Not_numeric
| Integer_literal (n : Z)
| Float_literal.

Definition classify (s : string) : literal :=
  let '(sign, s) := skip_sign (skip_spaces s) in
  let '(n, k1, s) := take_digits s 0 0 in
  let '(point, k2, s) :=
    match s with
    | String c s' =>
        if Ascii.eqb c "."
        then let '(_, k, r) := take_digits s' 0 0 in (true, k, r)
        else (false, O, s)
    | EmptyString => (false, O, s)
    end in
  if Nat.eqb (k1 + k2) 0 then Not_numeric
  else
    let '(exponent, well_formed, s) :=
      match s with
      | String c s' =>
          if Ascii.eqb c "e" || Ascii.eqb c "E"
          then let '(_, k, r) := take_digits (snd (skip_sign s')) 0 0 in
               (true, negb (Nat.eqb k 0), r)
          else (false, true, s)
      | EmptyString => (false, true, s)
      end in
    match skip_spaces s with
    | EmptyString =>
        if negb well_formed then Not_numeric
        else if point || exponent then Float_literal
        else Integer_literal (sign * n)
    | String _ _ => Not_numeric
    end.

Definition numeric_literal (s : string) : bool :=
  match classify s with Not_numeric => false | _ => true end.



(** Two TEXT values compare under the BINARY collation, byte by byte, a
    proper prefix first.  This is the comparison of the availability
    query when neither side is a numeric literal, as is the case of every
    string of the grammar of [PyDatetime.fromisoformat], which has [-] at
    offsets 4 and 7. *)
Definition text_lt (a b : string) : bool := String.ltb a b.

Definition max_rowid (ids : list Z) : Z := fold_right Z.max 0 ids.

(** The rowid an AUTOINCREMENT table gives its next row: one more than
    the largest it ever held, which [sqlite_sequence] remembers. *)
Definition next_rowid (seq : Z) (ids : list Z) : Z :=
  Z.max seq (max_rowid ids) + 1.

End Sqlite.

(** ** The tables and the request and response models *)

Record venue_row := mk_venue {
  v_id : Z;
  v_name : string;
  v_type : string;
  v_capacity : Z;
  v_location : string
}.

Record booking_row := mk_booking {
  b_id : Z;
  b_venue_id : Z;
  b_booker_name : string;
  b_start_time : string;
  b_end_time : string
}.

(** The file [bookings.db]: both tables in rowid order, each with the
    counter [sqlite_sequence] keeps for it. *)
Record database := mk_database {
  venues : list venue_row;
  venues_seq : Z;
  bookings : list booking_row;
  bookings_seq : Z
}.

Definition empty_database : database := mk_database [] 0 [] 0.

Record BookingRequest := mk_BookingRequest {
  req_venue_id : Z;
  req_booker_name : string;
  req_start_time : string;
  req_end_time : string
}.

Record BookingResponse := mk_BookingResponse {
  resp_id : Z;
  resp_venue_id : Z;
  resp_venue_name : string;
  resp_booker_name : string;
  resp_start_time : string;
  resp_end_time : string
}.

Record AvailabilityRequest := mk_AvailabilityRequest {
  avail_venue_id : Z;
  avail_start_time : string;
  avail_end_time : string
}.

(** What a handler answers: the value it returns (status 200), the
    [HTTPException] it raises, or an exception nothing catches, which the
    framework answers with status 500. *)
Inductive response (A : Type) : Type :=
| Return (a : A)
| HTTPException (status_code : Z) (detail : string)
| Uncaught (exc : string).

Arguments Return {A} a.
Arguments HTTPException {A} status_code detail.
Arguments Uncaught {A} exc.

Definition status {A} (r : response A) : Z :=
  match r with
  | Return _ => 200
  | HTTPException code _ => code
  | Uncaught _ => 500
  end.

(** ** [init_database] *)

Definition default_venues : list (string * string * Z * string) :=
  [ ("Lecture Hall A", "Room", 50, "Building 1, Floor 1");
    ("Lecture Hall B", "Room", 75, "Building 1, Floor 2");
    ("Main Library", "Library", 200, "Central Building");
    ("Science Lab 1", "Lab", 30, "Science Building, Floor 1");
    ("Auditorium", "Auditorium", 300, "Main Building");
    ("Study Room 101", "Study Room", 10, "Library, Floor 2");
    ("Computer Lab", "Lab", 25, "Tech Building, Floor 1");
    ("Conference Room A", "Meeting Room", 20, "Admin Building, Floor 3") ]%string.

(** INSERT INTO venues (name, type, capacity, location) VALUES (?, ?, ?, ?) *)
Definition insert_venue (db : database) (v : string * string * Z * string)
  : database :=
  let '(name, type, capacity, location) := v in
  let id := Sqlite.next_rowid (venues_seq db) (map v_id (venues db)) in
  mk_database (venues db ++ [mk_venue id name type capacity location]) id
              (bookings db) (bookings_seq db).

Definition init_database (db : database) : database :=
  if Nat.eqb (List.length (venues db)) 0
  then fold_left insert_venue default_venues db
  else db.

(** ** The helpers and routes *)

(** SELECT * FROM bookings WHERE venue_id = ?
      AND (start_time < ? AND end_time > ?)
    bound to [(venue_id, end_time, start_time)]; [fetchone] is the first
    such row.  The two comparisons are those of TEXT, which SQLite applies
    when neither the cell nor the bound string is a numeric literal
    ([Sqlite.numeric_affinity]); the venue id is one that binds
    ([Sqlite.binds]). *)
Definition conflicting (venue_id : Z) (start_time end_time : string)
  (b : booking_row) : bool :=
  (b_venue_id b =? venue_id)
  && (Sqlite.text_lt (b_start_time b) end_time
      && Sqlite.text_lt start_time (b_end_time b)).

Definition is_available (db : database) (venue_id : Z)
  (start_time end_time : string) : bool :=
  match find (conflicting venue_id start_time end_time) (bookings db) with
  | None => true
  | Some _ => false
  end.

(** [str.replace('Z', '+00:00')]: every [Z] of the string. *)
Fixpoint replace_Z (s : string) : string :=
  match s with
  | EmptyString => EmptyString
  | String c s' =>
      if Ascii.eqb c "Z" then ("+00:00" ++ replace_Z s')%string
      else String c (replace_Z s')
  end.

(** INSERT INTO bookings (venue_id, booker_name, start_time, end_time).
    The row is recorded by the values bound; what the two DATETIME cells
    keep of them is [stored_start] and [stored_end]. *)
Definition insert_booking (db : database) (booking : BookingRequest)
  : database * Z :=
  let id := Sqlite.next_rowid (bookings_seq db) (map b_id (bookings db)) in
  (mk_database (venues db) (venues_seq db)
     (bookings db ++ [mk_booking id (req_venue_id booking)
                        (req_booker_name booking) (req_start_time booking)
                        (req_end_time booking)])
     id,
   id).

(** SELECT name FROM venues WHERE id = ? *)
Definition select_venue_name (db : database) (venue_id : Z) : option string :=
  option_map v_name (find (fun v => v_id v =? venue_id) (venues db)).

Section Routes.

(** [datetime.fromisoformat] is the Python library's: the routes are
    written over any function of its type. *)
Variable fromisoformat : string -> option PyDatetime.datetime.

(** POST /bookings, for a venue id that binds ([Sqlite.binds]).  The
    INSERT and the SELECT of the venue name share one connection: when
    [fetchone()] finds no venue, [None[0]] raises [TypeError], the handler
    closes the connection without a commit (the INSERT is rolled back) and
    answers 500. *)
Definition create_booking (db : database) (booking : BookingRequest)
  : database * response BookingResponse :=
  match fromisoformat (replace_Z (req_start_time booking)),
        fromisoformat (replace_Z (req_end_time booking)) with
  | Some start_dt, Some end_dt =>
      match PyDatetime.le end_dt start_dt with
      | None =>
          (db, Uncaught
                 "TypeError: can't compare offset-naive and offset-aware datetimes")
      | Some true =>
          (db, HTTPException 400 "End time must be after start time")
      | Some false =>
          if negb (is_available db (req_venue_id booking)
                     (req_start_time booking) (req_end_time booking))
          then (db, HTTPException 409
                      "Venue is not available for the selected time")
          else
            let '(db', booking_id) := insert_booking db booking in
            match select_venue_name db' (req_venue_id booking) with
            | None =>
                (db, HTTPException 500
                       "Database error: 'NoneType' object is not subscriptable")
            | Some venue_name =>
                (db', Return (mk_BookingResponse booking_id
                                (req_venue_id booking) venue_name
                                (req_booker_name booking)
                                (req_start_time booking)
                                (req_end_time booking)))
            end
      end
  | _, _ => (db, HTTPException 400 "Invalid datetime format")
  end.

(** POST /check-availability.  [is_available] binds the venue id to its
    query, which raises for an id beyond 64 bits; nothing catches it. *)
Definition check_availability (db : database) (request : AvailabilityRequest)
  : database * response bool :=
  if Sqlite.binds (avail_venue_id request)
  then (db, Return (is_available db (avail_venue_id request)
                      (avail_start_time request) (avail_end_time request)))
  else (db, Uncaught
              "OverflowError: Python int too large to convert to SQLite INTEGER").

(** DELETE /bookings/{booking_id}: DELETE FROM bookings WHERE id = ?,
    committed unless no row went; for a booking id that binds
    ([Sqlite.binds]). *)
Definition delete_booking (db : database) (booking_id : Z)
  : database * response string :=
  let kept := filter (fun b => negb (b_id b =? booking_id)) (bookings db) in
  let rowcount := (List.length (bookings db) - List.length kept)%nat in
  if Nat.eqb rowcount 0
  then (db, HTTPException 404 "Booking not found")
  else (mk_database (venues db) (venues_seq db) kept (bookings_seq db),
        Return "Booking deleted successfully"%string).

(** A caller's mutating requests, served one after another. *)
Inductive operation :=
| Admit (booking : BookingRequest)
| Delete (booking_id : Z).

Definition serve (db : database) (o : operation) : database :=
  match o with
  | Admit booking => fst (create_booking db booking)
  | Delete booking_id => fst (delete_booking db booking_id)
  end.

Definition serve_all (db : database) (os : list operation) : database :=
  fold_left serve os db.

End Routes.

(** ** Concrete runs

    The database after start-up, and requests on its venue 1, served with
    the grammar of [PyDatetime.fromisoformat]. *)

Definition seeded : database := init_database empty_database.

Definition request (venue_id : Z) (start_time end_time : string)
  : BookingRequest :=
  mk_BookingRequest venue_id "Ada" start_time end_time.

Definition post_booking (db : database) (booking : BookingRequest)
  : database * response BookingResponse :=
  create_booking PyDatetime.fromisoformat db booking.

Definition ten_to_eleven : BookingRequest :=
  request 1 "2024-01-01T10:00:00Z" "2024-01-01T11:00:00Z".

Definition eleven_to_twelve : BookingRequest :=
  request 1 "2024-01-01T11:00:00Z" "2024-01-01T12:00:00Z".

(** ** The outcomes of [create_booking], case by case *)

(** The six ways a request ends, each with the checks it passed and the
    database and answer it leaves. *)
Inductive create_booking_cases (fromisoformat : string -> option PyDatetime.datetime)
  (db : database) (booking : BookingRequest)
  : database * response BookingResponse -> Prop :=
| case_format :
    fromisoformat (replace_Z (req_start_time booking)) = None
    \/ fromisoformat (replace_Z (req_end_time booking)) = None ->
    create_booking_cases fromisoformat db booking
      (db, HTTPException 400 "Invalid datetime format")
| case_type_error start_dt end_dt :
    fromisoformat (replace_Z (req_start_time booking)) = Some start_dt ->
    fromisoformat (replace_Z (req_end_time booking)) = Some end_dt ->
    PyDatetime.le end_dt start_dt = None ->
    create_booking_cases fromisoformat db booking
      (db, Uncaught
             "TypeError: can't compare offset-naive and offset-aware datetimes")
| case_order start_dt end_dt :
    fromisoformat (replace_Z (req_start_time booking)) = Some start_dt ->
    fromisoformat (replace_Z (req_end_time booking)) = Some end_dt ->
    PyDatetime.le end_dt start_dt = Some true ->
    create_booking_cases fromisoformat db booking
      (db, HTTPException 400 "End time must be after start time")
| case_conflict start_dt end_dt :
    fromisoformat (replace_Z (req_start_time booking)) = Some start_dt ->
    fromisoformat (replace_Z (req_end_time booking)) = Some end_dt ->
    PyDatetime.le end_dt start_dt = Some false ->
    is_available db (req_venue_id booking) (req_start_time booking)
      (req_end_time booking) = false ->
    create_booking_cases fromisoformat db booking
      (db, HTTPException 409 "Venue is not available for the selected time")
| case_no_venue start_dt end_dt :
    fromisoformat (replace_Z (req_start_time booking)) = Some start_dt ->
    fromisoformat (replace_Z (req_end_time booking)) = Some end_dt ->
    PyDatetime.le end_dt start_dt = Some false ->
    is_available db (req_venue_id booking) (req_start_time booking)
      (req_end_time booking) = true ->
    select_venue_name db (req_venue_id booking) = None ->
    create_booking_cases fromisoformat db booking
      (db, HTTPException 500
             "Database error: 'NoneType' object is not subscriptable")
| case_admitted start_dt end_dt venue_name :
    fromisoformat (replace_Z (req_start_time booking)) = Some start_dt ->
    fromisoformat (replace_Z (req_end_time booking)) = Some end_dt ->
    PyDatetime.le end_dt start_dt = Some false ->
    is_available db (req_venue_id booking) (req_start_time booking)
      (req_end_time booking) = true ->
    select_venue_name db (req_venue_id booking) = Some venue_name ->
    create_booking_cases fromisoformat db booking
      (fst (insert_booking db booking),
       Return (mk_BookingResponse (snd (insert_booking db booking))
                 (req_venue_id booking) venue_name (req_booker_name booking)
                 (req_start_time booking) (req_end_time booking))).

(** ** The interval model of the specification

    A booking window is the half-open interval of the two datetimes that
    [create_booking] itself reads from the submitted strings; two windows
    overlap when each starts before the other ends.  The comparison is
    Python's, so it is undefined between a naive and an aware datetime. *)

Definition window (fromisoformat : string -> option PyDatetime.datetime)
  (start_time end_time : string)
  : option (PyDatetime.datetime * PyDatetime.datetime) :=
  match fromisoformat (replace_Z start_time),
        fromisoformat (replace_Z end_time) with
  | Some s, Some e => Some (s, e)
  | _, _ => None
  end.

Definition overlap (w1 w2 : PyDatetime.datetime * PyDatetime.datetime)
  : option bool :=
  match PyDatetime.lt (fst w1) (snd w2), PyDatetime.lt (fst w2) (snd w1) with
  | Some a, Some b => Some (a && b)
  | _, _ => None
  end.

Definition windows_overlap (fromisoformat : string -> option PyDatetime.datetime)
  (s1 e1 s2 e2 : string) : option bool :=
  match window fromisoformat s1 e1, window fromisoformat s2 e2 with
  | Some w1, Some w2 => overlap w1 w2
  | _, _ => None
  end.

(** The same predicate on the stored texts, in the order the store
    compares them. *)
Definition text_overlap (b1 b2 : booking_row) : bool :=
  Sqlite.text_lt (b_start_time b1) (b_end_time b2)
  && Sqlite.text_lt (b_start_time b2) (b_end_time b1).

Definition text_disjoint (b1 b2 : booking_row) : Prop :=
  b_venue_id b1 = b_venue_id b2 -> text_overlap b1 b2 = false.

Definition pairwise_text_disjoint (db : database) : Prop :=
  ForallOrdPairs text_disjoint (bookings db).

(** ** Requests that write one instant in two ways *)

Definition utc_ten_to_eleven : BookingRequest :=
  request 1 "2024-01-01T10:00:00+00:00" "2024-01-01T11:00:00+00:00".

(** 10:00 to 11:00 UTC again, on a clock two hours ahead. *)
Definition plus2_twelve_to_one : BookingRequest :=
  request 1 "2024-01-01T12:00:00+02:00" "2024-01-01T13:00:00+02:00".

(** 10:30 to 11:30 UTC, on a clock two hours ahead. *)
Definition plus2_half_past : BookingRequest :=
  request 1 "2024-01-01T12:30:00+02:00" "2024-01-01T13:30:00+02:00".

(** [eleven_to_twelve] with every [Z] written as [+00:00]. *)
Definition eleven_to_twelve_offset : BookingRequest :=
  request 1 (replace_Z (req_start_time eleven_to_twelve))
            (replace_Z (req_end_time eleven_to_twelve)).

Definition unknown_venue_request : BookingRequest :=
  request 999 "2024-01-01T10:00:00Z" "2024-01-01T11:00:00Z".

(** ** The read routes and start-up *)

Record VenueResponse := mk_VenueResponse {
  vr_id : Z;
  vr_name : string;
  vr_type : string;
  vr_capacity : Z;
  vr_location : string
}.

(** ORDER BY a TEXT column, ascending.  SQLite leaves the order of rows
    with equal keys open; here they stay in the order they come in. *)
Fixpoint insert_by {A} (key : A -> string) (x : A) (rows : list A) : list A :=
  match rows with
  | [] => [x]
  | y :: rows' =>
      if Sqlite.text_lt (key y) (key x) then y :: insert_by key x rows'
      else x :: rows
  end.

Definition order_by {A} (key : A -> string) (rows : list A) : list A :=
  fold_right (insert_by key) [] rows.

(** GET /venues:
    SELECT id, name, type, capacity, location FROM venues ORDER BY name *)
Definition venue_response (venue : venue_row) : VenueResponse :=
  mk_VenueResponse (v_id venue) (v_name venue) (v_type venue)
    (v_capacity venue) (v_location venue).

Definition get_venues (db : database)
  : database * response (list VenueResponse) :=
  (db, Return (map venue_response (order_by v_name (venues db)))).

(** The rows [bookings b JOIN venues v ON b.venue_id = v.id] gives for one
    booking row, projected on the six selected columns. *)
Definition join_venues (db : database) (b : booking_row)
  : list BookingResponse :=
  map (fun v => mk_BookingResponse (b_id b) (b_venue_id b) (v_name v)
                  (b_booker_name b) (b_start_time b) (b_end_time b))
      (filter (fun v => v_id v =? b_venue_id b) (venues db)).

(** GET /bookings:
    SELECT b.id, b.venue_id, v.name, b.booker_name, b.start_time, b.end_time
    FROM bookings b JOIN venues v ON b.venue_id = v.id ORDER BY b.start_time *)
Definition get_bookings (db : database)
  : database * response (list BookingResponse) :=
  (db, Return (order_by resp_start_time
                 (flat_map (join_venues db) (bookings db)))).

(** The start-up hook. *)
Definition startup (db : database) : database := init_database db.

(** ** What the tables keep without the store enforcing it *)

(** No booking row has an id above the counter of its table. *)
Definition ids_bounded (db : database) : Prop :=
  Forall (fun b => b_id b <= bookings_seq db) (bookings db).

(** Every booking row names a venue row: the FOREIGN KEY of the schema,
    which SQLite does not enforce by default. *)
Definition references_venues (db : database) : Prop :=
  Forall (fun b => exists v, In v (venues db) /\ v_id v = b_venue_id b)
         (bookings db).

Record well_formed (db : database) : Prop := mk_well_formed {
  wf_venue_ids : NoDup (map v_id (venues db));
  wf_booking_ids : NoDup (map b_id (bookings db));
  wf_ids_bounded : ids_bounded db;
  wf_references : references_venues db
}.

(** A request written with a clock and no offset at one end only. *)
Definition naive_to_aware : BookingRequest :=
  request 1 "2024-01-01T10:00:00" "2024-01-01T11:00:00Z".

(** 18:00 to 20:00 UTC, the start on a clock five hours ahead: the end
    datetime is after the start datetime, the end text below the start
    text. *)
Definition start_on_late_clock : BookingRequest :=
  request 1 "2024-01-01T23:00:00+05:00" "2024-01-01T20:00:00+00:00".

(** ** The cells behind a booking row

    A booking row is recorded by the values bound to its INSERT.  The cell
    a DATETIME column keeps for a bound text is its [numeric_affinity]:
    the text itself unless it is a numeric literal. *)



(** Neither timestamp of the request is a numeric literal. *)
Definition text_request (booking : BookingRequest) : Prop :=
  Sqlite.numeric_literal (req_start_time booking) = false
  /\ Sqlite.numeric_literal (req_end_time booking) = false.

(** Every timestamp of the bookings table is kept as TEXT. *)
Definition text_timestamps (db : database) : Prop :=
  Forall (fun b => Sqlite.numeric_literal (b_start_time b) = false
                   /\ Sqlite.numeric_literal (b_end_time b) = false)
         (bookings db).


(** ** Properties of the helpers *)

Lemma text_lt_irrefl (s : string) : Sqlite.text_lt s s = false.
Proof.
  unfold Sqlite.text_lt, String.ltb.
  assert (E : String.compare s s = Eq).
  { induction s as [|c s IH]; simpl; [reflexivity|].
    unfold Ascii.compare. rewrite N.compare_refl. exact IH. }
  now rewrite E.
Qed.

Lemma max_rowid_ge (ids : list Z) (i : Z) :
  In i ids -> i <= Sqlite.max_rowid ids.
Proof.
  induction ids as [|j ids IH]; simpl; [tauto|].
  intros [->|H]; [lia|]. specialize (IH H). lia.
Qed.

Lemma next_rowid_fresh (seq : Z) (ids : list Z) :
  ~ In (Sqlite.next_rowid seq ids) ids.
Proof.
  intros H. apply max_rowid_ge in H. unfold Sqlite.next_rowid in H. lia.
Qed.

(** [is_available] answers [false] exactly when some row of the venue
    satisfies both strict comparisons of the query. *)
Lemma is_available_false_iff (db : database) (venue_id : Z) (s e : string) :
  is_available db venue_id s e = false <->
  exists b, In b (bookings db) /\ b_venue_id b = venue_id
            /\ Sqlite.text_lt (b_start_time b) e = true
            /\ Sqlite.text_lt s (b_end_time b) = true.
Proof.
  unfold is_available.
  destruct (find _ _) as [b|] eqn:F; split; try discriminate; try reflexivity.
  - intros _. apply find_some in F. destruct F as [I C].
    unfold conflicting in C.
    apply andb_true_iff in C. destruct C as [V C].
    apply andb_true_iff in C. destruct C as [C1 C2].
    exists b. repeat split; auto. now apply Z.eqb_eq.
  - intros (b & I & V & C1 & C2).
    pose proof (find_none _ _ F b I) as N.
    unfold conflicting in N. rewrite C1, C2 in N.
    apply Z.eqb_eq in V. rewrite V in N. discriminate.
Qed.

Lemma is_available_true_iff (db : database) (venue_id : Z) (s e : string) :
  is_available db venue_id s e = true <->
  forall b, In b (bookings db) -> conflicting venue_id s e b = false.
Proof.
  unfold is_available. split.
  - destruct (find _ _) eqn:F; [discriminate|]. intros _. now apply find_none.
  - intros H. destruct (find _ _) as [b|] eqn:F; [|reflexivity].
    apply find_some in F. destruct F as [I C]. rewrite (H b I) in C.
    discriminate.
Qed.

Lemma create_booking_inv fromisoformat db booking :
  create_booking_cases fromisoformat db booking
    (create_booking fromisoformat db booking).
Proof.
  unfold create_booking.
  destruct (fromisoformat (replace_Z (req_start_time booking))) as [sd|] eqn:S;
    [|constructor; now left].
  destruct (fromisoformat (replace_Z (req_end_time booking))) as [ed|] eqn:E;
    [|constructor; now right].
  destruct (PyDatetime.le ed sd) as [[|]|] eqn:L.
  - eapply case_order; eauto.
  - destruct (is_available db _ _ _) eqn:A; cbn [negb].
    + pose proof (eq_refl : select_venue_name (fst (insert_booking db booking))
                              (req_venue_id booking)
                            = select_venue_name db (req_venue_id booking)) as V0.
      destruct (select_venue_name db (req_venue_id booking)) as [name|] eqn:V.
      * pose proof (case_admitted fromisoformat db booking sd ed name S E L A V) as C.
        destruct (insert_booking db booking) as [db' id].
        cbn [fst snd] in *. rewrite V0. exact C.
      * pose proof (case_no_venue fromisoformat db booking sd ed S E L A V) as C.
        destruct (insert_booking db booking) as [db' id].
        cbn [fst snd] in *. rewrite V0. exact C.
    + eapply case_conflict; eauto.
  - eapply case_type_error; eauto.
Qed.

Lemma create_booking_admits fromisoformat db booking start_dt end_dt name :
  fromisoformat (replace_Z (req_start_time booking)) = Some start_dt ->
  fromisoformat (replace_Z (req_end_time booking)) = Some end_dt ->
  PyDatetime.le end_dt start_dt = Some false ->
  is_available db (req_venue_id booking) (req_start_time booking)
    (req_end_time booking) = true ->
  select_venue_name db (req_venue_id booking) = Some name ->
  create_booking fromisoformat db booking
  = (fst (insert_booking db booking),
     Return (mk_BookingResponse (snd (insert_booking db booking))
               (req_venue_id booking) name (req_booker_name booking)
               (req_start_time booking) (req_end_time booking))).
Proof.
  intros S E L A V.
  pose proof (create_booking_inv fromisoformat db booking) as C.
  inversion C as [F|sd ed S' E' L'|sd ed S' E' L'|sd ed S' E' L' A'
                 |sd ed S' E' L' A' V'|sd ed n S' E' L' A' V'];
    try (destruct F; congruence); try congruence.
  rewrite V in V'. injection V' as <-. reflexivity.
Qed.

Lemma create_booking_return_inv fromisoformat db db' booking r :
  create_booking fromisoformat db booking = (db', Return r) ->
  exists start_dt end_dt name,
    fromisoformat (replace_Z (req_start_time booking)) = Some start_dt
    /\ fromisoformat (replace_Z (req_end_time booking)) = Some end_dt
    /\ PyDatetime.le end_dt start_dt = Some false
    /\ is_available db (req_venue_id booking) (req_start_time booking)
         (req_end_time booking) = true
    /\ select_venue_name db (req_venue_id booking) = Some name
    /\ db' = fst (insert_booking db booking)
    /\ r = mk_BookingResponse (snd (insert_booking db booking))
             (req_venue_id booking) name (req_booker_name booking)
             (req_start_time booking) (req_end_time booking).
Proof.
  intros H. pose proof (create_booking_inv fromisoformat db booking) as C.
  rewrite H in C. inversion C; subst; clear C.
  do 3 eexists. repeat split; eassumption.
Qed.

(** Every answer but [Return] leaves the database as it was. *)
Lemma create_booking_rejects_unchanged fromisoformat db booking :
  (forall r, snd (create_booking fromisoformat db booking) <> Return r) ->
  fst (create_booking fromisoformat db booking) = db.
Proof.
  intros H. pose proof (create_booking_inv fromisoformat db booking) as C.
  destruct (create_booking fromisoformat db booking) as [db' a].
  cbn [fst snd] in *. inversion C; subst; try reflexivity.
  now destruct (H _ eq_refl).
Qed.

(** ** Validation comes first *)



(** ** The advisory availability check *)

(** C9, corrected: for a venue id beyond 64 bits the check raises
    [OverflowError] instead of answering, rows or no rows. *)
Lemma availability_check_beyond_64_bits :
  (forall b, In b (bookings seeded) -> b_venue_id b <> 2 ^ 63)
  /\ check_availability seeded
       (mk_AvailabilityRequest (2 ^ 63) "2024-01-01T10:00:00Z"
          "2024-01-01T11:00:00Z")
     = (seeded,
        Uncaught
          "OverflowError: Python int too large to convert to SQLite INTEGER")
  /\ snd (check_availability seeded
            (mk_AvailabilityRequest (2 ^ 63) "2024-01-01T10:00:00Z"
               "2024-01-01T11:00:00Z"))
     <> Return true.
Proof.
  split; [intros b []|]. split; [reflexivity | discriminate].
Qed.

(** C9. [is_available] answers [True] for a venue id that is a signed
    64-bit integer and has no booking rows, whatever the venue table holds
    (the id need not be a venue), and the check-availability route returns
    that flag with the database as it was. *)
Theorem is_available_without_rows (db : database) (venue_id : Z)
  (start_time end_time : string) :
  Sqlite.binds venue_id = true ->
  (forall b, In b (bookings db) -> b_venue_id b <> venue_id) ->
  is_available db venue_id start_time end_time = true
  /\ (forall vs seq,
        is_available (mk_database vs seq (bookings db) (bookings_seq db))
          venue_id start_time end_time = true)
  /\ check_availability db
       (mk_AvailabilityRequest venue_id start_time end_time)
     = (db, Return true).
Proof.
  intros R H.
  assert (A : is_available db venue_id start_time end_time = true).
  { apply is_available_true_iff. intros b I. unfold conflicting.
    destruct (Z.eqb_spec (b_venue_id b) venue_id) as [V|V]; [|reflexivity].
    now destruct (H b I). }
  split; [exact A|]. split.
  - intros vs seq. exact A.
  - unfold check_availability. cbn [avail_venue_id avail_start_time avail_end_time].
    now rewrite R, A.
Qed.

Lemma is_available_without_rows_witness :
  is_available seeded 999 "2024-01-01T10:00:00Z" "2024-01-01T11:00:00Z" = true
  /\ check_availability seeded
       (mk_AvailabilityRequest 999 "2024-01-01T10:00:00Z" "2024-01-01T11:00:00Z")
     = (seeded, Return true).
Proof.
  destruct (is_available_without_rows seeded 999
              "2024-01-01T10:00:00Z" "2024-01-01T11:00:00Z") as (A & _ & C).
  - reflexivity.
  - intros b I. destruct I.
  - split; [exact A | exact C].
Defined.

(** ** What an admission stores and returns *)





(** ** Seeding *)

Lemma init_database_nonempty (db : database) :
  venues db <> [] -> init_database db = db.
Proof.
  unfold init_database. destruct (venues db); [congruence | reflexivity].
Qed.

Lemma insert_venue_spec (db : database) (v : string * string * Z * string) :
  map (fun r => (v_name r, v_type r, v_capacity r, v_location r))
      (venues (insert_venue db v))
  = map (fun r => (v_name r, v_type r, v_capacity r, v_location r))
        (venues db) ++ [v]
  /\ (NoDup (map v_id (venues db)) ->
      NoDup (map v_id (venues (insert_venue db v))))
  /\ bookings (insert_venue db v) = bookings db.
Proof.
  destruct v as [[[name type] capacity] location].
  unfold insert_venue. cbn [venues bookings]. rewrite !map_app.
  cbn [map v_id v_name v_type v_capacity v_location].
  split; [reflexivity|]. split; [|reflexivity].
  intros N. apply NoDup_app; [exact N | repeat constructor; intros [] |].
  intros i I [<-|[]]. revert I. apply next_rowid_fresh.
Qed.

Lemma insert_venues_spec (vs : list (string * string * Z * string))
  (db : database) :
  map (fun r => (v_name r, v_type r, v_capacity r, v_location r))
      (venues (fold_left insert_venue vs db))
  = map (fun r => (v_name r, v_type r, v_capacity r, v_location r))
        (venues db) ++ vs
  /\ (NoDup (map v_id (venues db)) ->
      NoDup (map v_id (venues (fold_left insert_venue vs db))))
  /\ bookings (fold_left insert_venue vs db) = bookings db.
Proof.
  revert db. induction vs as [|v vs IH]; intros db; cbn [fold_left].
  - rewrite app_nil_r. auto.
  - destruct (IH (insert_venue db v)) as (M & N & B).
    destruct (insert_venue_spec db v) as (M1 & N1 & B1).
    rewrite M, M1, B, B1, <- app_assoc. auto.
Qed.

Lemma init_database_seeds (db : database) :
  venues db = [] ->
  map (fun v => (v_name v, v_type v, v_capacity v, v_location v))
      (venues (init_database db)) = default_venues
  /\ NoDup (map v_id (venues (init_database db)))
  /\ bookings (init_database db) = bookings db.
Proof.
  intros E. unfold init_database. rewrite E. cbn [List.length Nat.eqb].
  destruct (insert_venues_spec default_venues db) as (M & N & B).
  rewrite E in M, N. split; [exact M|]. split; [|exact B].
  apply N. constructor.
Qed.

(** C8. On an empty venue table [init_database] inserts the eight default
    venues, in order and under distinct ids; on a venue table that holds a
    row it changes nothing; so a second run changes nothing, and the
    bookings table is never touched. *)
Theorem init_database_idempotent :
  (forall db, venues db = [] ->
     map (fun v => (v_name v, v_type v, v_capacity v, v_location v))
         (venues (init_database db)) = default_venues
     /\ NoDup (map v_id (venues (init_database db))))
  /\ (forall db, venues db <> [] -> init_database db = db)
  /\ (forall db, init_database (init_database db) = init_database db)
  /\ (forall db, bookings (init_database db) = bookings db).
Proof.
  split; [|split; [|split]].
  - intros db E. destruct (init_database_seeds db E) as (M & N & _). now split.
  - exact init_database_nonempty.
  - intros db. destruct (venues db) as [|v vs] eqn:E.
    + apply init_database_nonempty.
      destruct (init_database_seeds db E) as (M & _ & _).
      intros Z0. rewrite Z0 in M. discriminate.
    + rewrite (init_database_nonempty db) by congruence.
      apply init_database_nonempty. congruence.
  - intros db. destruct (venues db) as [|v vs] eqn:E.
    + now destruct (init_database_seeds db E) as (_ & _ & B).
    + rewrite init_database_nonempty; congruence.
Qed.

(** ** The boundary policy of the conflict check *)

(** C4. With 10:00-11:00 stored for venue 1 in the [Z] form, the request
    11:00-12:00 written with [+00:00] starts at the instant the stored
    booking ends, so the two windows share a boundary and do not overlap;
    the query compares the texts, where [Z] is above [+], and the request
    is answered 409 with nothing inserted. *)
Theorem shared_boundary_rejected :
  let db := fst (post_booking seeded ten_to_eleven) in
  (exists b,
      bookings db = [b]
      /\ b_venue_id b = req_venue_id eleven_to_twelve_offset
      /\ window PyDatetime.fromisoformat (b_end_time b) (b_end_time b)
         = window PyDatetime.fromisoformat
             (req_start_time eleven_to_twelve_offset)
             (req_start_time eleven_to_twelve_offset)
      /\ windows_overlap PyDatetime.fromisoformat
           (b_start_time b) (b_end_time b)
           (req_start_time eleven_to_twelve_offset)
           (req_end_time eleven_to_twelve_offset) = Some false)
  /\ post_booking db eleven_to_twelve_offset
     = (db, HTTPException 409 "Venue is not available for the selected time").
Proof.
  cbv zeta. split; [|vm_compute; reflexivity].
  eexists. split; [vm_compute; reflexivity|].
  repeat split; vm_compute; reflexivity.
Qed.

(** ** Conflicts as the store sees them *)

Lemma text_overlap_sym (b1 b2 : booking_row) :
  text_overlap b1 b2 = text_overlap b2 b1.
Proof. unfold text_overlap. apply andb_comm. Qed.

Lemma ForallOrdPairs_snoc {A} (R : A -> A -> Prop) (l : list A) (x : A) :
  ForallOrdPairs R l -> Forall (fun y => R y x) l ->
  ForallOrdPairs R (l ++ [x]).
Proof.
  induction 1 as [|a l Ha Hl IH]; intros Hx; cbn [app].
  - repeat constructor.
  - inversion Hx as [|? ? Rax Hx']; subst. constructor.
    + apply Forall_app. split; [exact Ha | now constructor].
    + now apply IH.
Qed.

Lemma ForallOrdPairs_filter {A} (R : A -> A -> Prop) (f : A -> bool)
  (l : list A) :
  ForallOrdPairs R l -> ForallOrdPairs R (filter f l).
Proof.
  induction 1 as [|a l Ha Hl IH]; cbn [filter]; [constructor|].
  destruct (f a); [|exact IH]. constructor; [|exact IH].
  rewrite Forall_forall in *. intros y Hy. apply Ha.
  now apply filter_In in Hy.
Qed.

(** A row that the availability query passes over is disjoint, in the
    store's order, from the row the request becomes. *)
Lemma available_text_disjoint db booking id :
  is_available db (req_venue_id booking) (req_start_time booking)
    (req_end_time booking) = true ->
  Forall (fun b => text_disjoint b
            (mk_booking id (req_venue_id booking) (req_booker_name booking)
               (req_start_time booking) (req_end_time booking)))
         (bookings db).
Proof.
  intros A. rewrite Forall_forall. intros b I V.
  pose proof (proj1 (is_available_true_iff _ _ _ _) A b I) as C.
  unfold conflicting in C. cbn [b_venue_id] in V.
  rewrite V, Z.eqb_refl in C. exact C.
Qed.

Lemma create_booking_text_disjoint fromisoformat db booking :
  pairwise_text_disjoint db ->
  pairwise_text_disjoint (fst (create_booking fromisoformat db booking)).
Proof.
  intros P. pose proof (create_booking_inv fromisoformat db booking) as C.
  inversion C as [F|sd ed S E L|sd ed S E L|sd ed S E L A
                 |sd ed S E L A V|sd ed n S E L A V]; cbn [fst]; try exact P.
  unfold pairwise_text_disjoint. cbn [insert_booking fst bookings].
  apply ForallOrdPairs_snoc; [exact P|].
  now apply available_text_disjoint.
Qed.

Lemma delete_booking_text_disjoint db booking_id :
  pairwise_text_disjoint db ->
  pairwise_text_disjoint (fst (delete_booking db booking_id)).
Proof.
  intros P. unfold delete_booking.
  destruct (Nat.eqb _ 0); cbn [fst]; [exact P|].
  unfold pairwise_text_disjoint. cbn [bookings].
  now apply ForallOrdPairs_filter.
Qed.

Lemma create_booking_text_timestamps fromisoformat db booking :
  text_timestamps db -> text_request booking ->
  text_timestamps (fst (create_booking fromisoformat db booking)).
Proof.
  intros T R. pose proof (create_booking_inv fromisoformat db booking) as C.
  inversion C; cbn [fst]; try exact T.
  unfold text_timestamps. cbn [insert_booking fst bookings].
  apply Forall_app. split; [exact T|]. constructor; [exact R | constructor].
Qed.

Lemma delete_booking_text_timestamps db booking_id :
  text_timestamps db -> text_timestamps (fst (delete_booking db booking_id)).
Proof.
  intros T. unfold delete_booking.
  destruct (Nat.eqb _ 0); cbn [fst]; [exact T|].
  unfold text_timestamps in *. cbn [bookings]. rewrite Forall_forall in *.
  intros b I. apply filter_In in I. now apply T.
Qed.

(** Take a bookings table whose timestamps are all kept as TEXT and whose
    rows are pairwise disjoint in the order of TEXT, and serve any
    sequence of admissions and deletions in which no submitted timestamp
    is a numeric literal.  Then two rows of one venue never satisfy the
    query's two strict comparisons against each other, and every
    timestamp is still kept as TEXT. *)
Theorem serve_all_text_disjoint
  (fromisoformat : string -> option PyDatetime.datetime)
  (os : list operation) (db : database) :
  text_timestamps db ->
  (forall booking, In (Admit booking) os -> text_request booking) ->
  pairwise_text_disjoint db ->
  pairwise_text_disjoint (serve_all fromisoformat db os)
  /\ text_timestamps (serve_all fromisoformat db os).
Proof.
  unfold serve_all. revert db.
  induction os as [|o os IH]; intros db T R P; cbn [fold_left]; [now split|].
  apply IH.
  - destruct o as [booking|booking_id]; cbn [serve].
    + apply create_booking_text_timestamps; [exact T|]. apply R. now left.
    + now apply delete_booking_text_timestamps.
  - intros booking I. apply R. now right.
  - destruct o as [booking|booking_id]; cbn [serve].
    + now apply create_booking_text_disjoint.
    + now apply delete_booking_text_disjoint.
Qed.

Lemma serve_all_text_disjoint_witness :
  pairwise_text_disjoint
    (serve_all PyDatetime.fromisoformat seeded
       [Admit ten_to_eleven; Admit eleven_to_twelve; Delete 1;
        Admit ten_to_eleven])
  /\ text_timestamps
       (serve_all PyDatetime.fromisoformat seeded
          [Admit ten_to_eleven; Admit eleven_to_twelve; Delete 1;
           Admit ten_to_eleven]).
Proof.
  apply (serve_all_text_disjoint PyDatetime.fromisoformat).
  - constructor.
  - intros booking [E|[E|[E|[E|[]]]]]; try discriminate E;
      injection E as <-; split; vm_compute; reflexivity.
  - constructor.
Defined.

(** A valid request that a stored row of its venue meets in both of the
    query's comparisons, none of the four timestamps compared being a
    numeric literal, is answered 409 and the database is left as it
    was. *)
Theorem text_conflict_rejected
  (fromisoformat : string -> option PyDatetime.datetime)
  (db : database) (booking : BookingRequest)
  (start_dt end_dt : PyDatetime.datetime) (b : booking_row) :
  fromisoformat (replace_Z (req_start_time booking)) = Some start_dt ->
  fromisoformat (replace_Z (req_end_time booking)) = Some end_dt ->
  PyDatetime.le end_dt start_dt = Some false ->
  text_request booking ->
  In b (bookings db) ->
  b_venue_id b = req_venue_id booking ->
  Sqlite.numeric_literal (b_start_time b) = false ->
  Sqlite.numeric_literal (b_end_time b) = false ->
  Sqlite.text_lt (b_start_time b) (req_end_time booking) = true ->
  Sqlite.text_lt (req_start_time booking) (b_end_time b) = true ->
  create_booking fromisoformat db booking
  = (db, HTTPException 409 "Venue is not available for the selected time").
Proof.
  intros S E L _ I V _ _ C1 C2.
  assert (A : is_available db (req_venue_id booking) (req_start_time booking)
                (req_end_time booking) = false).
  { apply is_available_false_iff. exists b. auto. }
  unfold create_booking. now rewrite S, E, L, A.
Qed.

Lemma text_conflict_rejected_witness :
  post_booking (fst (post_booking seeded ten_to_eleven))
        (request 1 "2024-01-01T10:30:00Z" "2024-01-01T11:30:00Z")
  = (fst (post_booking seeded ten_to_eleven),
     HTTPException 409 "Venue is not available for the selected time").
Proof.
  eapply (text_conflict_rejected PyDatetime.fromisoformat
            (fst (post_booking seeded ten_to_eleven))
            (request 1 "2024-01-01T10:30:00Z" "2024-01-01T11:30:00Z")
            _ _ (mk_booking 1 1 "Ada" "2024-01-01T10:00:00Z"
                   "2024-01-01T11:00:00Z"));
    try reflexivity.
  - split; vm_compute; reflexivity.
  - vm_compute. now left.
Defined.

(** The rows of other venues play no part in the availability of a
    venue, so after an admission on one venue a valid request for another
    existing venue is admitted when it was admissible before, whatever
    its interval. *)
Theorem venues_are_independent
  (fromisoformat : string -> option PyDatetime.datetime)
  (db db1 : database) (first second : BookingRequest) (r1 : BookingResponse)
  (start_dt end_dt : PyDatetime.datetime) (name : string) :
  create_booking fromisoformat db first = (db1, Return r1) ->
  req_venue_id second <> req_venue_id first ->
  fromisoformat (replace_Z (req_start_time second)) = Some start_dt ->
  fromisoformat (replace_Z (req_end_time second)) = Some end_dt ->
  PyDatetime.le end_dt start_dt = Some false ->
  is_available db (req_venue_id second) (req_start_time second)
    (req_end_time second) = true ->
  select_venue_name db (req_venue_id second) = Some name ->
  exists db2 r2, create_booking fromisoformat db1 second = (db2, Return r2).
Proof.
  intros H V S E L A N.
  destruct (create_booking_return_inv _ _ _ _ _ H)
    as (sd1 & ed1 & name1 & _ & _ & _ & _ & _ & -> & _).
  do 2 eexists.
  apply (create_booking_admits fromisoformat _ second start_dt end_dt name S E L).
  - apply is_available_true_iff. intros b I.
    cbn [insert_booking fst bookings] in I. apply in_app_or in I.
    destruct I as [I|[<-|[]]].
    + revert b I. now apply is_available_true_iff.
    + unfold conflicting. cbn [b_venue_id].
      destruct (Z.eqb_spec (req_venue_id first) (req_venue_id second));
        [congruence | reflexivity].
  - exact N.
Qed.

Lemma venues_are_independent_witness :
  exists db2 r2,
    post_booking (fst (post_booking seeded ten_to_eleven))
          (request 2 "2024-01-01T10:00:00Z" "2024-01-01T11:00:00Z")
    = (db2, Return r2).
Proof.
  eapply (venues_are_independent PyDatetime.fromisoformat seeded _
            ten_to_eleven
            (request 2 "2024-01-01T10:00:00Z" "2024-01-01T11:00:00Z"));
    try reflexivity.
  cbn [req_venue_id request ten_to_eleven]. lia.
Defined.

(** ** Where the text order parts from the instants *)

(** C1. Served after start-up, 10:00-11:00 at offset +00:00 and then
    12:00-13:00 at offset +02:00 on venue 1 are both admitted: the table
    ends with two rows of one venue whose windows, read as
    [create_booking] reads them, are the same instants and so overlap. *)
Theorem same_instants_booked_twice :
  exists b1 b2,
    bookings (serve_all PyDatetime.fromisoformat seeded
                [Admit utc_ten_to_eleven; Admit plus2_twelve_to_one])
    = [b1; b2]
    /\ b_id b1 <> b_id b2
    /\ b_venue_id b1 = b_venue_id b2
    /\ windows_overlap PyDatetime.fromisoformat
         (b_start_time b1) (b_end_time b1) (b_start_time b2) (b_end_time b2)
       = Some true.
Proof.
  do 2 eexists. split; [vm_compute; reflexivity|].
  cbn [b_id b_venue_id b_start_time b_end_time].
  split; [discriminate|]. split; [reflexivity|]. vm_compute. reflexivity.
Qed.

(** C6. With 10:00-11:00 at offset +00:00 stored for venue 1, the request
    12:30-13:30 at offset +02:00 (10:30-11:30 UTC) for the same venue
    overlaps the stored window, yet it is answered 200 and a second row
    is inserted. *)
Theorem overlapping_request_admitted :
  let db := fst (post_booking seeded utc_ten_to_eleven) in
  (exists b, bookings db = [b]
             /\ b_venue_id b = req_venue_id plus2_half_past
             /\ windows_overlap PyDatetime.fromisoformat
                  (b_start_time b) (b_end_time b)
                  (req_start_time plus2_half_past)
                  (req_end_time plus2_half_past) = Some true)
  /\ status (snd (post_booking db plus2_half_past)) = 200
  /\ List.length (bookings (fst (post_booking db plus2_half_past))) = 2%nat.
Proof.
  cbv zeta. split; [|split; vm_compute; reflexivity].
  eexists. split; [vm_compute; reflexivity|].
  split; vm_compute; reflexivity.
Qed.

(** C7. With 10:00-11:00 stored for venue 1 in the [Z] form, the request
    11:00-12:00 in the [Z] form is answered 200, and the same request
    with [+00:00] in place of each [Z] is answered 409, although both
    forms are read as the same two datetimes. *)
Theorem utc_designator_changes_outcome :
  let db := fst (post_booking seeded ten_to_eleven) in
  window PyDatetime.fromisoformat (req_start_time eleven_to_twelve)
    (req_end_time eleven_to_twelve)
  = window PyDatetime.fromisoformat (req_start_time eleven_to_twelve_offset)
      (req_end_time eleven_to_twelve_offset)
  /\ status (snd (post_booking db eleven_to_twelve)) = 200
  /\ snd (post_booking db eleven_to_twelve_offset)
     = HTTPException 409 "Venue is not available for the selected time".
Proof.
  cbv zeta. repeat split; vm_compute; reflexivity.
Qed.

(** ** Requests for a venue that is not in the registry *)

(** A request on a venue id that the venue table does not hold is never
    admitted and leaves the database as it was. *)
Theorem unknown_venue_never_admitted
  (fromisoformat : string -> option PyDatetime.datetime)
  (db : database) (booking : BookingRequest) :
  select_venue_name db (req_venue_id booking) = None ->
  fst (create_booking fromisoformat db booking) = db
  /\ forall r, snd (create_booking fromisoformat db booking) <> Return r.
Proof.
  intros N.
  assert (R : forall r, snd (create_booking fromisoformat db booking) <> Return r).
  { intros r H.
    destruct (create_booking fromisoformat db booking) as [db' a] eqn:C.
    cbn [snd] in H. subst a.
    destruct (create_booking_return_inv _ _ _ _ _ C)
      as (_ & _ & name & _ & _ & _ & _ & V & _).
    congruence. }
  split; [|exact R]. now apply create_booking_rejects_unchanged.
Qed.

Lemma unknown_venue_never_admitted_witness :
  fst (post_booking seeded unknown_venue_request) = seeded
  /\ forall r, snd (post_booking seeded unknown_venue_request) <> Return r.
Proof.
  apply (unknown_venue_never_admitted PyDatetime.fromisoformat seeded
           unknown_venue_request).
  reflexivity.
Defined.

(** C3. After start-up, a request with a valid interval for venue id 999,
    which no venue row has, passes the conflict check and is answered
    with status 500 and the text of the [TypeError]; the database is as
    it was. *)
Theorem unknown_venue_answers_500 :
  select_venue_name seeded (req_venue_id unknown_venue_request) = None
  /\ post_booking seeded unknown_venue_request
     = (seeded,
        HTTPException 500
          "Database error: 'NoneType' object is not subscriptable").
Proof.
  split; vm_compute; reflexivity.
Qed.

(** ** The order of TEXT *)

Lemma compare_refl (s : string) : String.compare s s = Eq.
Proof.
  induction s as [|c s IH]; cbn [String.compare]; [reflexivity|].
  unfold Ascii.compare. now rewrite N.compare_refl.
Qed.

Lemma compare_lt_trans (a b c : string) :
  String.compare a b = Lt -> String.compare b c = Lt -> String.compare a c = Lt.
Proof.
  revert b c. induction a as [|x a IH]; intros [|y b] [|z c];
    cbn [String.compare]; try discriminate; try reflexivity.
  unfold Ascii.compare.
  destruct (N.compare_spec (N_of_ascii x) (N_of_ascii y)) as [E1|L1|G1];
    try discriminate;
    destruct (N.compare_spec (N_of_ascii y) (N_of_ascii z)) as [E2|L2|G2];
    try discriminate; intros H1 H2.
  - rewrite E1, E2, N.compare_refl. eauto.
  - rewrite E1. now apply N.compare_lt_iff in L2 as ->.
  - rewrite <- E2. now apply N.compare_lt_iff in L1 as ->.
  - assert (L : (N_of_ascii x < N_of_ascii z)%N) by lia.
    now apply N.compare_lt_iff in L as ->.
Qed.

Lemma text_lt_asym (a b : string) :
  Sqlite.text_lt a b = true -> Sqlite.text_lt b a = false.
Proof.
  unfold Sqlite.text_lt, String.ltb. rewrite (String.compare_antisym b a).
  now destruct (String.compare a b).
Qed.

(** [a <= b <= c] gives [a <= c], where [x <= y] reads "not [y < x]". *)
Lemma text_le_trans (a b c : string) :
  Sqlite.text_lt b a = false -> Sqlite.text_lt c b = false ->
  Sqlite.text_lt c a = false.
Proof.
  unfold Sqlite.text_lt, String.ltb.
  rewrite (String.compare_antisym b a), (String.compare_antisym c b),
    (String.compare_antisym c a).
  destruct (String.compare a b) eqn:AB; cbn [CompOpp]; try discriminate;
    destruct (String.compare b c) eqn:BC; cbn [CompOpp]; try discriminate;
    intros _ _.
  - apply String.compare_eq_iff in AB, BC. subst. now rewrite compare_refl.
  - apply String.compare_eq_iff in AB. subst. now rewrite BC.
  - apply String.compare_eq_iff in BC. subst. now rewrite AB.
  - now rewrite (compare_lt_trans a b c AB BC).
Qed.

(** ** ORDER BY *)

Lemma insert_by_perm {A} (key : A -> string) (x : A) (rows : list A) :
  Permutation (x :: rows) (insert_by key x rows).
Proof.
  induction rows as [|y rows IH]; cbn [insert_by]; [reflexivity|].
  destruct (Sqlite.text_lt (key y) (key x)); [|reflexivity].
  rewrite perm_swap. now constructor.
Qed.

Lemma order_by_perm {A} (key : A -> string) (rows : list A) :
  Permutation rows (order_by key rows).
Proof.
  induction rows as [|x rows IH]; cbn [order_by fold_right]; [constructor|].
  rewrite <- insert_by_perm. now constructor.
Qed.

Lemma insert_by_sorted {A} (key : A -> string) (x : A) (rows : list A) :
  StronglySorted (fun a b => Sqlite.text_lt (key b) (key a) = false) rows ->
  StronglySorted (fun a b => Sqlite.text_lt (key b) (key a) = false)
                 (insert_by key x rows).
Proof.
  induction 1 as [|y rows S IH F]; cbn [insert_by].
  - repeat constructor.
  - destruct (Sqlite.text_lt (key y) (key x)) eqn:L.
    + constructor; [exact IH|].
      rewrite <- (insert_by_perm key x rows). constructor; [|exact F].
      now apply text_lt_asym.
    + constructor; [now constructor|]. constructor; [exact L|].
      rewrite Forall_forall in *. intros z I.
      apply (text_le_trans (key x) (key y) (key z)); auto.
Qed.

Lemma order_by_sorted {A} (key : A -> string) (rows : list A) :
  StronglySorted (fun a b => Sqlite.text_lt (key b) (key a) = false)
                 (order_by key rows).
Proof.
  induction rows as [|x rows IH]; cbn [order_by fold_right]; [constructor|].
  now apply insert_by_sorted.
Qed.

Lemma StronglySorted_map {A B} (R : B -> B -> Prop) (f : A -> B)
  (l : list A) :
  StronglySorted (fun a b => R (f a) (f b)) l -> StronglySorted R (map f l).
Proof.
  induction 1 as [|a l S IH F]; cbn [map]; constructor; [exact IH|].
  rewrite Forall_forall in *. intros b I. apply in_map_iff in I.
  destruct I as (x & <- & I). now apply F.
Qed.

(** ** The listings *)

(** GET /venues answers with every venue row exactly once, in ascending
    order of the names as TEXT, and leaves the database as it was. *)
Theorem get_venues_sorted_listing (db : database) :
  exists rows,
    get_venues db = (db, Return rows)
    /\ Permutation (map venue_response (venues db)) rows
    /\ StronglySorted
         (fun a b => Sqlite.text_lt (vr_name b) (vr_name a) = false) rows.
Proof.
  eexists. split; [reflexivity|]. split.
  - apply Permutation_map, order_by_perm.
  - apply StronglySorted_map. exact (order_by_sorted v_name (venues db)).
Qed.

Lemma in_join_venues (db : database) (b : booking_row) (r : BookingResponse) :
  In r (join_venues db b) <->
  exists v, In v (venues db) /\ v_id v = b_venue_id b
            /\ r = mk_BookingResponse (b_id b) (b_venue_id b) (v_name v)
                     (b_booker_name b) (b_start_time b) (b_end_time b).
Proof.
  unfold join_venues. rewrite in_map_iff. split.
  - intros (v & <- & I). apply filter_In in I. destruct I as [I E].
    exists v. repeat split; auto. now apply Z.eqb_eq.
  - intros (v & I & E & ->). exists v. split; [reflexivity|].
    apply filter_In. split; [exact I | now apply Z.eqb_eq].
Qed.

(** When every timestamp of the bookings table is kept as TEXT,
    GET /bookings answers with the rows of the join and no others, each as
    often as the join has it: a booking row once for each venue row of its
    [venue_id], and so not at all when no venue row has that id.  The rows
    come in ascending order of the start times as TEXT, and the database
    is left as it was. *)
Theorem get_bookings_sorted_join (db : database) :
  text_timestamps db ->
  exists rows,
    get_bookings db = (db, Return rows)
    /\ Permutation (flat_map (join_venues db) (bookings db)) rows
    /\ StronglySorted
         (fun a b => Sqlite.text_lt (resp_start_time b) (resp_start_time a)
                     = false) rows
    /\ (forall b r,
          In r (join_venues db b) <->
          exists v, In v (venues db) /\ v_id v = b_venue_id b
                    /\ r = mk_BookingResponse (b_id b) (b_venue_id b)
                             (v_name v) (b_booker_name b) (b_start_time b)
                             (b_end_time b))
    /\ (forall b, (forall v, In v (venues db) -> v_id v <> b_venue_id b) ->
                  join_venues db b = []).
Proof.
  intros _. eexists. split; [reflexivity|]. split; [apply order_by_perm|].
  split; [apply order_by_sorted|]. split; [exact (in_join_venues db)|].
  intros b N. destruct (join_venues db b) as [|r rs] eqn:J; [reflexivity|].
  assert (I : In r (join_venues db b)) by (rewrite J; now left).
  apply in_join_venues in I. destruct I as (v & Iv & E & _).
  now destruct (N v Iv).
Qed.

Lemma get_bookings_sorted_join_witness :
  exists rows,
    get_bookings
      (fst (post_booking (fst (post_booking seeded eleven_to_twelve))
              ten_to_eleven))
    = (fst (post_booking (fst (post_booking seeded eleven_to_twelve))
              ten_to_eleven),
       Return rows)
    /\ StronglySorted
         (fun a b => Sqlite.text_lt (resp_start_time b) (resp_start_time a)
                     = false) rows.
Proof.
  destruct (get_bookings_sorted_join
              (fst (post_booking (fst (post_booking seeded eleven_to_twelve))
                      ten_to_eleven))) as (rows & G & _ & S & _).
  - apply create_booking_text_timestamps;
      [apply create_booking_text_timestamps; [constructor|]|];
      split; vm_compute; reflexivity.
  - exists rows. split; [exact G | exact S].
Defined.

Lemma filter_unique_venue (vs : list venue_row) (v : venue_row) :
  NoDup (map v_id vs) -> In v vs ->
  filter (fun x => v_id x =? v_id v) vs = [v].
Proof.
  induction vs as [|x vs IH]; cbn [map filter In]; [tauto|].
  intros N I. inversion N as [|? ? NI N']; subst.
  destruct I as [->|I].
  - rewrite Z.eqb_refl. f_equal.
    destruct (filter _ vs) as [|y ys] eqn:F; [reflexivity|].
    assert (Iy : In y (filter (fun x => v_id x =? v_id v) vs))
      by (rewrite F; now left).
    apply filter_In in Iy. destruct Iy as [Iy E]. apply Z.eqb_eq in E.
    destruct NI. rewrite <- E. now apply in_map.
  - destruct (Z.eqb_spec (v_id x) (v_id v)) as [E|E]; [|now apply IH].
    destruct NI. rewrite E. now apply in_map.
Qed.

Lemma join_ids (db : database) :
  NoDup (map v_id (venues db)) -> references_venues db ->
  map resp_id (flat_map (join_venues db) (bookings db))
  = map b_id (bookings db).
Proof.
  unfold references_venues. intros N.
  induction 1 as [|b bs (v & I & E) F IH]; cbn [flat_map map]; [reflexivity|].
  rewrite map_app, IH. unfold join_venues at 1.
  rewrite <- E, (filter_unique_venue _ v N I). reflexivity.
Qed.

(** When venue ids are unique and every booking row names a venue row,
    GET /bookings lists each booking row exactly once, under the name of
    its venue. *)
Theorem get_bookings_lists_each_once (db : database) :
  NoDup (map v_id (venues db)) -> references_venues db ->
  exists rows,
    get_bookings db = (db, Return rows)
    /\ Permutation (map b_id (bookings db)) (map resp_id rows)
    /\ forall r, In r rows ->
         select_venue_name db (resp_venue_id r) = Some (resp_venue_name r).
Proof.
  intros N R. eexists. split; [reflexivity|]. split.
  - rewrite <- (join_ids db N R). apply Permutation_map, order_by_perm.
  - intros r I.
    apply (Permutation_in _ (Permutation_sym (order_by_perm _ _))) in I.
    apply in_flat_map in I. destruct I as (b & Ib & I).
    apply in_join_venues in I. destruct I as (v & Iv & E & ->).
    cbn [resp_venue_id resp_venue_name]. unfold select_venue_name.
    destruct (find _ (venues db)) as [w|] eqn:F.
    + apply find_some in F. destruct F as [Iw Ew]. apply Z.eqb_eq in Ew.
      assert (S1 : filter (fun x => v_id x =? v_id v) (venues db) = [v])
        by now apply filter_unique_venue.
      assert (Iw' : In w (filter (fun x => v_id x =? v_id v) (venues db))).
      { apply filter_In. split; [exact Iw|]. apply Z.eqb_eq. congruence. }
      rewrite S1 in Iw'. destruct Iw' as [->|[]]. reflexivity.
    + pose proof (find_none _ _ F v Iv) as X. cbn beta in X.
      rewrite E, Z.eqb_refl in X. discriminate.
Qed.

(** ** What every served request keeps *)

Lemma next_rowid_above (seq : Z) (ids : list Z) :
  seq < Sqlite.next_rowid seq ids
  /\ forall i, In i ids -> i < Sqlite.next_rowid seq ids.
Proof.
  unfold Sqlite.next_rowid. split; [lia|].
  intros i I. apply max_rowid_ge in I. lia.
Qed.

Lemma NoDup_map_filter {A B} (f : A -> B) (g : A -> bool) (l : list A) :
  NoDup (map f l) -> NoDup (map f (filter g l)).
Proof.
  induction l as [|x l IH]; cbn [map filter]; [auto|].
  intros N. inversion N as [|? ? NI N']; subst.
  destruct (g x); cbn [map]; [|now apply IH].
  constructor; [|now apply IH].
  intros I. apply NI. apply in_map_iff in I. destruct I as (y & E & I).
  apply filter_In in I. rewrite <- E. apply in_map. tauto.
Qed.

Lemma select_venue_name_some (db : database) (venue_id : Z) (name : string) :
  select_venue_name db venue_id = Some name ->
  exists v, In v (venues db) /\ v_id v = venue_id.
Proof.
  unfold select_venue_name. destruct (find _ _) as [v|] eqn:F; [|discriminate].
  intros _. apply find_some in F. destruct F as [I E].
  exists v. split; [exact I | now apply Z.eqb_eq].
Qed.

Lemma create_booking_well_formed fromisoformat db booking :
  well_formed db ->
  well_formed (fst (create_booking fromisoformat db booking)).
Proof.
  intros [Nv Nb Bd Rf].
  pose proof (create_booking_inv fromisoformat db booking) as C.
  inversion C as [F|sd ed S E L|sd ed S E L|sd ed S E L A
                 |sd ed S E L A V|sd ed n S E L A V]; cbn [fst];
    try (now constructor).
  destruct (next_rowid_above (bookings_seq db) (map b_id (bookings db)))
    as [Hs Hi].
  constructor; unfold ids_bounded, references_venues;
    cbn [insert_booking fst venues bookings bookings_seq].
  - exact Nv.
  - rewrite map_app. apply NoDup_app; [exact Nb | repeat constructor; intros []|].
    intros i I [<-|[]]. revert I. apply next_rowid_fresh.
  - apply Forall_app. split.
    + unfold ids_bounded in Bd. rewrite Forall_forall in *.
      intros b I. specialize (Bd b I). lia.
    + repeat constructor. cbn [b_id]. lia.
  - apply Forall_app. split; [exact Rf|]. repeat constructor.
    cbn [b_venue_id]. now apply select_venue_name_some in V.
Qed.

Lemma delete_booking_well_formed db booking_id :
  well_formed db -> well_formed (fst (delete_booking db booking_id)).
Proof.
  intros [Nv Nb Bd Rf]. unfold delete_booking.
  destruct (Nat.eqb _ 0); cbn [fst]; [now constructor|].
  constructor; unfold ids_bounded, references_venues in *;
    cbn [venues bookings bookings_seq].
  - exact Nv.
  - now apply NoDup_map_filter.
  - rewrite Forall_forall in *. intros b I. apply filter_In in I. now apply Bd.
  - rewrite Forall_forall in *. intros b I. apply filter_In in I. now apply Rf.
Qed.

(** Unique venue ids, unique booking ids below the table's counter, and
    bookings that all name a venue row: whatever sequence of admissions
    and deletions is served, a database that has these keeps them,
    although the store enforces no foreign key. *)
Theorem serve_all_well_formed
  (fromisoformat : string -> option PyDatetime.datetime)
  (os : list operation) (db : database) :
  well_formed db -> well_formed (serve_all fromisoformat db os).
Proof.
  unfold serve_all. revert db.
  induction os as [|o os IH]; intros db W; cbn [fold_left]; [exact W|].
  apply IH. destruct o as [booking|booking_id]; cbn [serve].
  - now apply create_booking_well_formed.
  - now apply delete_booking_well_formed.
Qed.

Lemma init_database_keeps_well_formed (db : database) :
  well_formed db -> well_formed (init_database db).
Proof.
  intros W. destruct (venues db) as [|v vs] eqn:E.
  - destruct (init_database_seeds db E) as (_ & N & B).
    destruct W as [Nv Nb Bd Rf].
    assert (Bs : bookings db = []).
    { unfold references_venues in Rf. rewrite E in Rf.
      destruct (bookings db) as [|b bs]; [reflexivity|].
      inversion Rf as [|? ? (v & [] & _) _]. }
    constructor; unfold ids_bounded, references_venues; rewrite ?B, ?Bs;
      auto; constructor.
  - rewrite init_database_nonempty; [exact W | congruence].
Qed.

Lemma startup_well_formed : well_formed (startup empty_database).
Proof. apply init_database_keeps_well_formed. repeat constructor. Qed.

(** [init_database] keeps the same properties, and a fresh database has
    them after start-up. *)
Theorem init_database_well_formed :
  (forall db, well_formed db -> well_formed (init_database db))
  /\ well_formed (startup empty_database).
Proof.
  split; [exact init_database_keeps_well_formed | exact startup_well_formed].
Qed.

Lemma serve_all_well_formed_witness :
  well_formed
    (serve_all PyDatetime.fromisoformat seeded
       [Admit ten_to_eleven; Admit unknown_venue_request; Delete 1;
        Admit eleven_to_twelve]).
Proof.
  apply (serve_all_well_formed PyDatetime.fromisoformat).
  exact startup_well_formed.
Defined.

(** ** Booking ids *)

Lemma serve_seq_mono fromisoformat db o :
  bookings_seq db <= bookings_seq (serve fromisoformat db o).
Proof.
  destruct o as [booking|booking_id]; cbn [serve].
  - pose proof (create_booking_inv fromisoformat db booking) as C.
    inversion C; cbn [fst]; try lia.
    cbn [insert_booking fst bookings_seq].
    pose proof (next_rowid_above (bookings_seq db) (map b_id (bookings db))).
    lia.
  - unfold delete_booking. destruct (Nat.eqb _ 0); cbn [fst bookings_seq]; lia.
Qed.

Lemma serve_all_seq_mono fromisoformat os db :
  bookings_seq db <= bookings_seq (serve_all fromisoformat db os).
Proof.
  unfold serve_all. revert db.
  induction os as [|o os IH]; intros db; cbn [fold_left]; [lia|].
  pose proof (serve_seq_mono fromisoformat db o). specialize (IH (serve fromisoformat db o)).
  lia.
Qed.

(** An id is never given twice: the id of an admission is above the id of
    every booking row the table held at any earlier time, whether that
    row is still there or has been deleted since. *)
Theorem booking_ids_never_reused
  (fromisoformat : string -> option PyDatetime.datetime)
  (db db' : database) (os : list operation) (booking : BookingRequest)
  (r : BookingResponse) (b : booking_row) :
  ids_bounded db ->
  In b (bookings db) ->
  create_booking fromisoformat (serve_all fromisoformat db os) booking
  = (db', Return r) ->
  b_id b < resp_id r.
Proof.
  intros Bd I H.
  destruct (create_booking_return_inv _ _ _ _ _ H)
    as (_ & _ & name & _ & _ & _ & _ & _ & _ & ->).
  cbn [resp_id insert_booking snd].
  pose proof (serve_all_seq_mono fromisoformat os db) as M.
  destruct (next_rowid_above
              (bookings_seq (serve_all fromisoformat db os))
              (map b_id (bookings (serve_all fromisoformat db os)))) as [Hs _].
  unfold ids_bounded in Bd. rewrite Forall_forall in Bd. specialize (Bd b I).
  lia.
Qed.

Lemma booking_ids_never_reused_witness :
  exists db' r,
    post_booking
      (serve_all PyDatetime.fromisoformat
         (fst (post_booking seeded ten_to_eleven)) [Delete 1])
      ten_to_eleven = (db', Return r)
    /\ 1 < resp_id r.
Proof.
  assert (E : post_booking
                (serve_all PyDatetime.fromisoformat
                   (fst (post_booking seeded ten_to_eleven)) [Delete 1])
                ten_to_eleven
              = (fst (post_booking
                        (serve_all PyDatetime.fromisoformat
                           (fst (post_booking seeded ten_to_eleven)) [Delete 1])
                        ten_to_eleven),
                 Return (mk_BookingResponse 2 1 "Lecture Hall A" "Ada"
                           "2024-01-01T10:00:00Z" "2024-01-01T11:00:00Z")))
    by (vm_compute; reflexivity).
  do 2 eexists. split; [exact E|].
  apply (booking_ids_never_reused PyDatetime.fromisoformat
           (fst (post_booking seeded ten_to_eleven)) _ [Delete 1]
           ten_to_eleven _
           (mk_booking 1 1 "Ada" "2024-01-01T10:00:00Z" "2024-01-01T11:00:00Z")
           ltac:(repeat constructor; vm_compute; discriminate)
           ltac:(vm_compute; now left) E).
Defined.

(** ** Deleting *)

Lemma filter_all {A} (f : A -> bool) (l : list A) :
  (forall x, In x l -> f x = true) -> filter f l = l.
Proof.
  induction l as [|x l IH]; cbn [filter]; [reflexivity|].
  intros H. rewrite (H x (or_introl eq_refl)). f_equal. apply IH.
  intros y I. apply H. now right.
Qed.

Lemma filter_shorter {A} (f : A -> bool) (l : list A) (x : A) :
  In x l -> f x = false ->
  (List.length (filter f l) < List.length l)%nat.
Proof.
  induction l as [|y l IH]; cbn [filter In List.length]; [tauto|].
  intros [->|I] E.
  - rewrite E. pose proof (filter_length_le f l). lia.
  - specialize (IH I E). destruct (f y); cbn [List.length]; lia.
Qed.

Lemma delete_booking_missing (db : database) (booking_id : Z) :
  (forall b, In b (bookings db) -> b_id b <> booking_id) ->
  delete_booking db booking_id = (db, HTTPException 404 "Booking not found").
Proof.
  intros H. unfold delete_booking. rewrite filter_all.
  - now rewrite Nat.sub_diag.
  - intros b I. apply negb_true_iff. apply Z.eqb_neq. now apply H.
Qed.

Lemma delete_booking_found (db : database) (booking_id : Z) (b : booking_row) :
  In b (bookings db) -> b_id b = booking_id ->
  delete_booking db booking_id
  = (mk_database (venues db) (venues_seq db)
       (filter (fun b => negb (b_id b =? booking_id)) (bookings db))
       (bookings_seq db),
     Return "Booking deleted successfully"%string).
Proof.
  intros I E. unfold delete_booking.
  pose proof (filter_shorter (fun b => negb (b_id b =? booking_id))
                (bookings db) b I) as L. cbn beta in L.
  rewrite E, Z.eqb_refl in L. specialize (L eq_refl).
  destruct (Nat.eqb_spec
              (List.length (bookings db)
               - List.length (filter (fun b => negb (b_id b =? booking_id))
                                (bookings db))) 0); [lia | reflexivity].
Qed.

(** For a booking id that is a signed 64-bit integer, DELETE answers 404
    and leaves the database as it was when no booking row has the id;
    otherwise it answers 200 and removes the rows of that id and nothing
    else: the other booking rows stay, in their order, and the venues and
    both counters are untouched. *)
Theorem delete_booking_outcome (db : database) (booking_id : Z) :
  Sqlite.binds booking_id = true ->
  ((forall b, In b (bookings db) -> b_id b <> booking_id) ->
   delete_booking db booking_id = (db, HTTPException 404 "Booking not found"))
  /\ ((exists b, In b (bookings db) /\ b_id b = booking_id) ->
      exists db',
        delete_booking db booking_id
        = (db', Return "Booking deleted successfully"%string)
        /\ bookings db'
           = filter (fun b => negb (b_id b =? booking_id)) (bookings db)
        /\ (forall b, In b (bookings db') <->
                      In b (bookings db) /\ b_id b <> booking_id)
        /\ venues db' = venues db
        /\ venues_seq db' = venues_seq db
        /\ bookings_seq db' = bookings_seq db).
Proof.
  intros _. split; [apply delete_booking_missing|].
  intros (b & I & E). eexists. split; [exact (delete_booking_found _ _ b I E)|].
  cbn [bookings venues venues_seq bookings_seq].
  split; [reflexivity|]. split; [|now repeat split].
  intros x. rewrite filter_In, negb_true_iff, Z.eqb_neq. reflexivity.
Qed.

Lemma delete_booking_outcome_witness :
  delete_booking (fst (post_booking seeded ten_to_eleven)) 7
  = (fst (post_booking seeded ten_to_eleven),
     HTTPException 404 "Booking not found")
  /\ exists db',
       delete_booking (fst (post_booking seeded ten_to_eleven)) 1
       = (db', Return "Booking deleted successfully"%string)
       /\ bookings db' = [].
Proof.
  split.
  - apply (delete_booking_outcome (fst (post_booking seeded ten_to_eleven)) 7);
      [reflexivity|].
    intros b [<-|[]]. vm_compute. discriminate.
  - destruct (delete_booking_outcome
                (fst (post_booking seeded ten_to_eleven)) 1 eq_refl)
      as [_ F].
    destruct F as (db' & D & B & _).
    + eexists. split; [vm_compute; now left | reflexivity].
    + exists db'. split; [exact D|]. rewrite B. vm_compute. reflexivity.
Defined.

(** A second DELETE of the same id, a signed 64-bit integer, always
    answers 404 and changes nothing. *)
Theorem delete_booking_twice (db : database) (booking_id : Z) :
  Sqlite.binds booking_id = true ->
  delete_booking (fst (delete_booking db booking_id)) booking_id
  = (fst (delete_booking db booking_id),
     HTTPException 404 "Booking not found").
Proof.
  intros _. apply delete_booking_missing. intros b I.
  unfold delete_booking in I.
  destruct (Nat.eqb _ 0) eqn:R; cbn [fst bookings] in I.
  - intros E. pose proof (filter_shorter (fun b => negb (b_id b =? booking_id))
                            (bookings db) b I) as L. cbn beta in L.
    rewrite E, Z.eqb_refl in L. specialize (L eq_refl).
    apply Nat.eqb_eq in R. lia.
  - apply filter_In in I. destruct I as [_ I].
    apply negb_true_iff in I. now apply Z.eqb_neq.
Qed.

Lemma delete_booking_twice_witness :
  delete_booking
    (fst (delete_booking (fst (post_booking seeded ten_to_eleven)) 1)) 1
  = (fst (delete_booking (fst (post_booking seeded ten_to_eleven)) 1),
     HTTPException 404 "Booking not found").
Proof.
  exact (delete_booking_twice (fst (post_booking seeded ten_to_eleven)) 1
           eq_refl).
Defined.

Lemma delete_created
  (fromisoformat : string -> option PyDatetime.datetime)
  (db db1 : database) (booking : BookingRequest) (r : BookingResponse) :
  create_booking fromisoformat db booking = (db1, Return r) ->
  delete_booking db1 (resp_id r)
  = (mk_database (venues db) (venues_seq db) (bookings db) (resp_id r),
     Return "Booking deleted successfully"%string).
Proof.
  intros H.
  destruct (create_booking_return_inv _ _ _ _ _ H)
    as (_ & _ & name & _ & _ & _ & _ & _ & -> & ->).
  cbn [resp_id insert_booking fst snd].
  set (id := Sqlite.next_rowid (bookings_seq db) (map b_id (bookings db))).
  set (row := mk_booking id (req_venue_id booking) (req_booker_name booking)
                (req_start_time booking) (req_end_time booking)).
  rewrite (delete_booking_found _ id row);
    [|cbn [bookings]; apply in_or_app; right; now left | reflexivity].
  cbn [venues venues_seq bookings bookings_seq]. rewrite filter_app.
  cbn [filter b_id row]. rewrite Z.eqb_refl. cbn [negb].
  rewrite app_nil_r, filter_all; [reflexivity|].
  intros b I. apply negb_true_iff. apply Z.eqb_neq. intros E.
  apply (next_rowid_fresh (bookings_seq db) (map b_id (bookings db))).
  fold id. rewrite <- E. now apply in_map.
Qed.

(** Deleting the booking an admission has just returned restores both
    tables; only the counter of the bookings table keeps the id. *)
Theorem create_then_delete_restores
  (fromisoformat : string -> option PyDatetime.datetime)
  (db db1 : database) (booking : BookingRequest) (r : BookingResponse) :
  create_booking fromisoformat db booking = (db1, Return r) ->
  delete_booking db1 (resp_id r)
  = (mk_database (venues db) (venues_seq db) (bookings db) (resp_id r),
     Return "Booking deleted successfully"%string).
Proof. exact (delete_created fromisoformat db db1 booking r). Qed.

Lemma create_then_delete_restores_witness :
  bookings (fst (delete_booking (fst (post_booking seeded ten_to_eleven)) 1))
  = bookings seeded.
Proof.
  assert (E : post_booking seeded ten_to_eleven
              = (fst (post_booking seeded ten_to_eleven),
                 Return (mk_BookingResponse 1 1 "Lecture Hall A" "Ada"
                           "2024-01-01T10:00:00Z" "2024-01-01T11:00:00Z")))
    by (vm_compute; reflexivity).
  pose proof (create_then_delete_restores PyDatetime.fromisoformat _ _ _ _ E)
    as D.
  cbn [resp_id] in D. rewrite D. reflexivity.
Defined.

(** After an admission and the deletion of the booking it returned, the
    same request is admitted again, under the next id. *)
Theorem delete_then_readmit
  (fromisoformat : string -> option PyDatetime.datetime)
  (db db1 : database) (booking : BookingRequest) (r : BookingResponse) :
  create_booking fromisoformat db booking = (db1, Return r) ->
  exists db3,
    create_booking fromisoformat (fst (delete_booking db1 (resp_id r))) booking
    = (db3, Return (mk_BookingResponse (resp_id r + 1) (resp_venue_id r)
                      (resp_venue_name r) (resp_booker_name r)
                      (resp_start_time r) (resp_end_time r))).
Proof.
  intros H. rewrite (delete_created _ _ _ _ _ H). cbn [fst].
  destruct (create_booking_return_inv _ _ _ _ _ H)
    as (sd & ed & name & S & E & L & A & V & _ & ->).
  cbn [resp_id resp_venue_id resp_venue_name resp_booker_name resp_start_time
       resp_end_time insert_booking snd].
  set (id := Sqlite.next_rowid (bookings_seq db) (map b_id (bookings db))).
  eexists.
  rewrite (create_booking_admits fromisoformat
             (mk_database (venues db) (venues_seq db) (bookings db) id)
             booking sd ed name S E L A V).
  f_equal. f_equal. cbn [insert_booking snd bookings bookings_seq]. f_equal.
  subst id.
  destruct (next_rowid_above (bookings_seq db) (map b_id (bookings db)))
    as [_ Hi].
  unfold Sqlite.next_rowid at 1.
  assert (M : Sqlite.max_rowid (map b_id (bookings db))
              <= Sqlite.next_rowid (bookings_seq db) (map b_id (bookings db)))
    by (unfold Sqlite.next_rowid; lia).
  lia.
Qed.

Lemma delete_then_readmit_witness :
  exists db3,
    post_booking (fst (delete_booking (fst (post_booking seeded ten_to_eleven)) 1))
      ten_to_eleven
    = (db3, Return (mk_BookingResponse 2 1 "Lecture Hall A" "Ada"
                      "2024-01-01T10:00:00Z" "2024-01-01T11:00:00Z")).
Proof.
  assert (E : post_booking seeded ten_to_eleven
              = (fst (post_booking seeded ten_to_eleven),
                 Return (mk_BookingResponse 1 1 "Lecture Hall A" "Ada"
                           "2024-01-01T10:00:00Z" "2024-01-01T11:00:00Z")))
    by (vm_compute; reflexivity).
  exact (delete_then_readmit PyDatetime.fromisoformat _ _ _ _ E).
Defined.

(** In a table whose rows are pairwise disjoint in the store's order,
    deleting a booking makes its own window available again. *)
Theorem delete_frees_window (db : database) (b : booking_row) :
  pairwise_text_disjoint db ->
  In b (bookings db) ->
  is_available (fst (delete_booking db (b_id b)))
    (b_venue_id b) (b_start_time b) (b_end_time b) = true.
Proof.
  intros P I. rewrite (delete_booking_found db (b_id b) b I eq_refl).
  cbn [fst]. apply is_available_true_iff. cbn [bookings]. intros x J.
  apply filter_In in J. destruct J as [J N].
  apply negb_true_iff, Z.eqb_neq in N.
  unfold conflicting.
  destruct (Z.eqb_spec (b_venue_id x) (b_venue_id b)) as [V|V]; [|reflexivity].
  cbn [andb].
  destruct (ForallOrdPairs_In P x b J I) as [->|[D|D]]; [congruence| |].
  - exact (D V).
  - change (text_overlap x b = false). rewrite text_overlap_sym.
    exact (D (eq_sym V)).
Qed.

Lemma delete_frees_window_witness :
  is_available
    (fst (delete_booking
            (serve_all PyDatetime.fromisoformat seeded
               [Admit ten_to_eleven; Admit eleven_to_twelve]) 1))
    1 "2024-01-01T10:00:00Z" "2024-01-01T11:00:00Z" = true.
Proof.
  apply (delete_frees_window
           (serve_all PyDatetime.fromisoformat seeded
              [Admit ten_to_eleven; Admit eleven_to_twelve])
           (mk_booking 1 1 "Ada" "2024-01-01T10:00:00Z" "2024-01-01T11:00:00Z")).
  - apply create_booking_text_disjoint, create_booking_text_disjoint.
    constructor.
  - vm_compute. now left.
Defined.

(** ** When a request is admitted, and what a rejection leaves *)

Lemma select_venue_name_none (db : database) (venue_id : Z) :
  select_venue_name db venue_id = None <->
  forall v, In v (venues db) -> v_id v <> venue_id.
Proof.
  unfold select_venue_name. split.
  - destruct (find _ _) eqn:F; [discriminate|]. intros _ v I E.
    pose proof (find_none _ _ F v I) as X. cbn beta in X.
    now rewrite E, Z.eqb_refl in X.
  - intros H. destruct (find _ _) as [v|] eqn:F; [|reflexivity].
    apply find_some in F. destruct F as [I E]. apply Z.eqb_eq in E.
    now destruct (H v I).
Qed.

(** [create_booking] admits a request exactly when both timestamps
    parse, the end datetime is after the start datetime, the availability
    query finds no row, and some venue row has the requested id. *)
Theorem create_booking_succeeds_iff
  (fromisoformat : string -> option PyDatetime.datetime)
  (db : database) (booking : BookingRequest) :
  (exists db' r, create_booking fromisoformat db booking = (db', Return r))
  <->
  (exists start_dt end_dt,
      fromisoformat (replace_Z (req_start_time booking)) = Some start_dt
      /\ fromisoformat (replace_Z (req_end_time booking)) = Some end_dt
      /\ PyDatetime.le end_dt start_dt = Some false)
  /\ is_available db (req_venue_id booking) (req_start_time booking)
       (req_end_time booking) = true
  /\ (exists v, In v (venues db) /\ v_id v = req_venue_id booking).
Proof.
  split.
  - intros (db' & r & H).
    destruct (create_booking_return_inv _ _ _ _ _ H)
      as (sd & ed & name & S & E & L & A & V & _ & _).
    split; [now exists sd, ed|]. split; [exact A|].
    now apply select_venue_name_some in V.
  - intros ((sd & ed & S & E & L) & A & (v & I & Ev)).
    destruct (select_venue_name db (req_venue_id booking)) as [name|] eqn:V.
    + do 2 eexists.
      exact (create_booking_admits fromisoformat db booking sd ed name S E L A V).
    + destruct (proj1 (select_venue_name_none _ _) V v I Ev).
Qed.

(** [create_booking] answers with status 200, 400, 409 or 500 only; unless
    the status is 200 the database is exactly as it was, and in every case
    the venue table and its counter are. *)
Theorem create_booking_statuses
  (fromisoformat : string -> option PyDatetime.datetime)
  (db : database) (booking : BookingRequest) :
  In (status (snd (create_booking fromisoformat db booking)))
     [200; 400; 409; 500]
  /\ (status (snd (create_booking fromisoformat db booking)) <> 200 ->
      fst (create_booking fromisoformat db booking) = db)
  /\ venues (fst (create_booking fromisoformat db booking)) = venues db
  /\ venues_seq (fst (create_booking fromisoformat db booking))
     = venues_seq db.
Proof.
  pose proof (create_booking_inv fromisoformat db booking) as C.
  inversion C; cbn [fst snd status In]; repeat split; auto; tauto.
Qed.

(** The same request again, straight after its admission, when neither
    its timestamps nor those of the table are numeric literals: it is
    answered 409 when its start text is below its end text in the order of
    TEXT, and admitted a second time when it is not. *)
Theorem repeated_request
  (fromisoformat : string -> option PyDatetime.datetime)
  (db db1 : database) (booking : BookingRequest) (r : BookingResponse) :
  text_timestamps db ->
  text_request booking ->
  create_booking fromisoformat db booking = (db1, Return r) ->
  if Sqlite.text_lt (req_start_time booking) (req_end_time booking)
  then create_booking fromisoformat db1 booking
       = (db1, HTTPException 409 "Venue is not available for the selected time")
  else exists db2 r2,
         create_booking fromisoformat db1 booking = (db2, Return r2).
Proof.
  intros _ _ H.
  destruct (create_booking_return_inv _ _ _ _ _ H)
    as (sd & ed & name & S & E & L & A & V & -> & _).
  destruct (Sqlite.text_lt (req_start_time booking) (req_end_time booking))
    eqn:T.
  - assert (A1 : is_available (fst (insert_booking db booking))
                   (req_venue_id booking) (req_start_time booking)
                   (req_end_time booking) = false).
    { apply is_available_false_iff. eexists. split.
      - cbn [insert_booking fst bookings]. apply in_or_app. right. now left.
      - cbn [b_venue_id b_start_time b_end_time]. auto. }
    unfold create_booking. now rewrite S, E, L, A1.
  - do 2 eexists.
    apply (create_booking_admits fromisoformat _ booking sd ed name S E L);
      [|exact V].
    apply is_available_true_iff. intros b I.
    cbn [insert_booking fst bookings] in I. apply in_app_or in I.
    destruct I as [I|[<-|[]]].
    + revert b I. now apply is_available_true_iff.
    + unfold conflicting. cbn [b_venue_id b_start_time b_end_time].
      now rewrite T, andb_false_r.
Qed.

Lemma repeated_request_witness :
  post_booking (fst (post_booking seeded ten_to_eleven)) ten_to_eleven
  = (fst (post_booking seeded ten_to_eleven),
     HTTPException 409 "Venue is not available for the selected time")
  /\ exists db2 r2,
       post_booking (fst (post_booking seeded start_on_late_clock))
         start_on_late_clock = (db2, Return r2).
Proof.
  assert (E : post_booking seeded ten_to_eleven
              = (fst (post_booking seeded ten_to_eleven),
                 Return (mk_BookingResponse 1 1 "Lecture Hall A" "Ada"
                           "2024-01-01T10:00:00Z" "2024-01-01T11:00:00Z")))
    by (vm_compute; reflexivity).
  assert (F : post_booking seeded start_on_late_clock
              = (fst (post_booking seeded start_on_late_clock),
                 Return (mk_BookingResponse 1 1 "Lecture Hall A" "Ada"
                           "2024-01-01T23:00:00+05:00"
                           "2024-01-01T20:00:00+00:00")))
    by (vm_compute; reflexivity).
  assert (T : text_timestamps seeded) by constructor.
  split.
  - refine (repeated_request PyDatetime.fromisoformat _ _ _ _ T _ E).
    split; vm_compute; reflexivity.
  - refine (repeated_request PyDatetime.fromisoformat _ _ _ _ T _ F).
    split; vm_compute; reflexivity.
Defined.

(** A request with one naive and one aware timestamp passes the format
    check, and the comparison of the two datetimes raises a [TypeError]
    that no handler catches: the answer is the framework's 500, not a 400,
    and the database is as it was. *)
Theorem mixed_awareness_uncaught
  (fromisoformat : string -> option PyDatetime.datetime)
  (db : database) (booking : BookingRequest)
  (start_dt end_dt : PyDatetime.datetime) :
  fromisoformat (replace_Z (req_start_time booking)) = Some start_dt ->
  fromisoformat (replace_Z (req_end_time booking)) = Some end_dt ->
  (PyDatetime.tzinfo start_dt = None <-> PyDatetime.tzinfo end_dt <> None) ->
  create_booking fromisoformat db booking
  = (db, Uncaught
           "TypeError: can't compare offset-naive and offset-aware datetimes").
Proof.
  intros S E M. unfold create_booking. rewrite S, E.
  assert (L : PyDatetime.le end_dt start_dt = None).
  { unfold PyDatetime.le, PyDatetime.cmp_key.
    destruct (PyDatetime.tzinfo start_dt), (PyDatetime.tzinfo end_dt);
      try reflexivity; exfalso.
    - destruct M as [_ M]. discriminate M. discriminate.
    - destruct M as [M _]. now apply M. }
  now rewrite L.
Qed.

Lemma mixed_awareness_uncaught_witness :
  post_booking seeded naive_to_aware
  = (seeded, Uncaught
               "TypeError: can't compare offset-naive and offset-aware datetimes")
  /\ status (snd (post_booking seeded naive_to_aware)) = 500.
Proof.
  assert (H : post_booking seeded naive_to_aware
              = (seeded, Uncaught
                   "TypeError: can't compare offset-naive and offset-aware datetimes")).
  { eapply (mixed_awareness_uncaught PyDatetime.fromisoformat seeded
              naive_to_aware); try reflexivity.
    cbn [PyDatetime.tzinfo]. split; [discriminate | reflexivity]. }
  split; [exact H|]. unfold post_booking in *. now rewrite H.
Defined.

(** ** The [Z] designator in validation *)

Lemma replace_Z_idempotent (s : string) : replace_Z (replace_Z s) = replace_Z s.
Proof.
  induction s as [|c s IH]; [reflexivity|]. cbn [replace_Z].
  destruct (Ascii.eqb c "Z") eqn:E.
  - cbn. now rewrite IH.
  - cbn [replace_Z]. now rewrite E, IH.
Qed.

(** A request and the same request with [+00:00] for every [Z] are read as
    the same two datetimes, so one is answered 400 exactly when the other
    is, with the same detail and whatever the two databases hold. *)
Theorem validation_ignores_utc_designator
  (fromisoformat : string -> option PyDatetime.datetime)
  (booking : BookingRequest) :
  let rewritten :=
    mk_BookingRequest (req_venue_id booking) (req_booker_name booking)
      (replace_Z (req_start_time booking)) (replace_Z (req_end_time booking)) in
  window fromisoformat (req_start_time rewritten) (req_end_time rewritten)
  = window fromisoformat (req_start_time booking) (req_end_time booking)
  /\ forall db db' detail,
       create_booking fromisoformat db booking
       = (db, HTTPException 400 detail)
       <-> create_booking fromisoformat db' rewritten
           = (db', HTTPException 400 detail).
Proof.
  cbv zeta. split.
  - unfold window. cbn [req_start_time req_end_time].
    now rewrite !replace_Z_idempotent.
  - intros db db' detail. unfold create_booking.
    cbn [req_start_time req_end_time req_venue_id req_booker_name].
    rewrite !replace_Z_idempotent.
    destruct (fromisoformat (replace_Z (req_start_time booking))) as [sd|];
      [|split; intros H; injection H as <-; reflexivity].
    destruct (fromisoformat (replace_Z (req_end_time booking))) as [ed|];
      [|split; intros H; injection H as <-; reflexivity].
    destruct (PyDatetime.le ed sd) as [[|]|];
      [split; intros H; injection H as <-; reflexivity| |split; discriminate].
    split; intros H.
    + destruct (is_available db _ _ _); cbn [negb] in H; [|discriminate].
      destruct (insert_booking db booking) as [d i].
      destruct (select_venue_name d _); discriminate.
    + destruct (is_available db' _ _ _); cbn [negb] in H; [|discriminate].
      destruct (insert_booking db' _) as [d i].
      destruct (select_venue_name d _); discriminate.
Qed.

(** ** Availability as rows come and go *)

Lemma is_available_incl (db1 db2 : database) (venue_id : Z) (s e : string) :
  (forall b, In b (bookings db1) -> In b (bookings db2)) ->
  is_available db2 venue_id s e = true ->
  is_available db1 venue_id s e = true.
Proof.
  intros I A. apply is_available_true_iff. intros b J.
  apply (proj1 (is_available_true_iff _ _ _ _) A). now apply I.
Qed.

(** No request makes a window available that was not: what is available
    after a [create_booking] was available before it.  No deletion takes
    availability away: what was available before a [delete_booking] is
    available after it. *)
Theorem availability_monotone :
  (forall fromisoformat db booking venue_id start_time end_time,
      is_available (fst (create_booking fromisoformat db booking))
        venue_id start_time end_time = true ->
      is_available db venue_id start_time end_time = true)
  /\ (forall db booking_id venue_id start_time end_time,
        is_available db venue_id start_time end_time = true ->
        is_available (fst (delete_booking db booking_id))
          venue_id start_time end_time = true).
Proof.
  split.
  - intros F db booking v s e. apply is_available_incl. intros b I.
    pose proof (create_booking_inv F db booking) as C.
    inversion C; cbn [fst]; auto.
    cbn [insert_booking fst bookings]. apply in_or_app. now left.
  - intros db id v s e. apply is_available_incl. intros b.
    unfold delete_booking. destruct (Nat.eqb _ 0); cbn [fst bookings]; auto.
    intros I. apply filter_In in I. tauto.
Qed.

(** ** Restarting *)

Lemma serve_all_venues fromisoformat os db :
  venues (serve_all fromisoformat db os) = venues db.
Proof.
  unfold serve_all. revert db.
  induction os as [|o os IH]; intros db; cbn [fold_left]; [reflexivity|].
  rewrite IH. destruct o as [booking|booking_id]; cbn [serve].
  - pose proof (create_booking_inv fromisoformat db booking) as C.
    inversion C; reflexivity.
  - unfold delete_booking. destruct (Nat.eqb _ 0); reflexivity.
Qed.

Lemma init_database_has_venues (db : database) :
  venues (init_database db) <> [].
Proof.
  destruct (venues db) as [|v vs] eqn:E.
  - destruct (init_database_seeds db E) as (M & _ & _).
    intros Z0. rewrite Z0 in M. discriminate.
  - rewrite init_database_nonempty; congruence.
Qed.

(** Once a database has been through start-up, start-up changes nothing
    again, whatever admissions and deletions were served in between: a
    restart never reseeds the venues, not even with every booking gone. *)
Theorem restart_changes_nothing
  (fromisoformat : string -> option PyDatetime.datetime)
  (db : database) (os : list operation) :
  startup (serve_all fromisoformat (startup db) os)
  = serve_all fromisoformat (startup db) os.
Proof.
  unfold startup. apply init_database_nonempty.
  rewrite serve_all_venues. apply init_database_has_venues.
Qed.

(** ** The listing after served requests *)

Lemma get_bookings_lists_each_once_witness :
  exists rows,
    get_bookings
      (fst (post_booking (fst (post_booking seeded eleven_to_twelve))
              ten_to_eleven))
    = (fst (post_booking (fst (post_booking seeded eleven_to_twelve))
              ten_to_eleven),
       Return rows)
    /\ Permutation [1; 2] (map resp_id rows).
Proof.
  assert (W : well_formed
                (fst (post_booking (fst (post_booking seeded eleven_to_twelve))
                        ten_to_eleven))).
  { apply create_booking_well_formed, create_booking_well_formed.
    exact startup_well_formed. }
  destruct (get_bookings_lists_each_once _ (wf_venue_ids _ W)
              (wf_references _ W)) as (rows & G & P & _).
  exists rows. split; [exact G | exact P].
Defined.
